(** * IMRC 2025 Book of Abstracts generator: a verified model

    Shallow embedding of [generate_book_of_abstracts.py].

    - Python [str] values are sequences of Unicode code points ([list N]).
    - Spreadsheet cells are missing ([VNaN]), text or integers.
    - python-docx objects are handles into the document tree.  No other block
      is appended to the body while a paragraph or a table is being filled,
      so the model fills each block and appends it once complete; the order
      of the body, of the rows of a table and of the children of a paragraph
      is the order in which the script creates them.
    - The bookmark counter [bid] and the [KeyError] a row lookup may raise are
      threaded by a small state-and-error monad.
    - python-docx element constructors are total in the model: the
      XML-compatibility check lxml applies to text lies outside it. *)

From Stdlib Require Import List ZArith NArith String Ascii Bool Lia QArith.
From Stdlib Require Import DecimalString FinFun.
Import ListNotations.
Close Scope Q_scope.

(* ================================================================== *)
(** ** Python strings *)

Definition char := N.
Definition str := list char.

(** An ASCII literal of the script as a sequence of code points. *)
Definition lit (s : string) : str := map N_of_ascii (list_ascii_of_string s).

Definition SPACE : char := 32%N.
Definition NEWLINE : char := 10%N.

(** [str.isspace] on one code point, which is also what [\s] matches in a
    [str] pattern and what [str.strip] removes: U+0009..U+000D,
    U+001C..U+0020, U+0085, U+00A0, U+1680, U+2000..U+200A, U+2028, U+2029,
    U+202F, U+205F, U+3000. *)
Definition isspace (c : char) : bool :=
  (((9 <=? c) && (c <=? 13)) || ((28 <=? c) && (c <=? 32))
   || (c =? 133) || (c =? 160) || (c =? 5760)
   || ((8192 <=? c) && (c <=? 8202))
   || (c =? 8232) || (c =? 8233) || (c =? 8239) || (c =? 8287)
   || (c =? 12288))%N.

Definition str_eqb (a b : str) : bool :=
  if list_eq_dec N.eq_dec a b then true else false.

(** [sep.join(parts)] *)
Fixpoint join (sep : str) (parts : list str) : str :=
  match parts with
  | [] => []
  | [p] => p
  | p :: rest => p ++ sep ++ join sep rest
  end.

(** [re.sub(r'\s+', ' ', s)]: the scanner is either outside a match or inside
    a greedy match of [\s+]; the replacement is written when a match starts. *)
Fixpoint re_sub_spaces (in_match : bool) (s : str) : str :=
  match s with
  | [] => []
  | c :: t =>
      if isspace c
      then (if in_match then re_sub_spaces true t
            else SPACE :: re_sub_spaces true t)
      else c :: re_sub_spaces false t
  end.

(** [s.lstrip()] *)
Fixpoint lstrip (s : str) : str :=
  match s with
  | [] => []
  | c :: t => if isspace c then lstrip t else s
  end.

(** [s.rstrip()] *)
Fixpoint rstrip (s : str) : str :=
  match s with
  | [] => []
  | c :: t =>
      match rstrip t with
      | [] => if isspace c then [] else [c]
      | r => c :: r
      end
  end.

(** [s.strip()] *)
Definition strip (s : str) : str := rstrip (lstrip s).

(* ================================================================== *)
(** ** Cell values *)

Inductive value :=
| VNaN
| VStr (s : str)
| VInt (z : Z).

Definition value_eq_dec (a b : value) : {a = b} + {a <> b}.
Proof.
  decide equality.
  - apply (list_eq_dec N.eq_dec).
  - apply Z.eq_dec.
Defined.

Definition value_eqb (a b : value) : bool :=
  if value_eq_dec a b then true else false.

(** [pd.isna] *)
Definition isna (v : value) : bool :=
  match v with VNaN => true | _ => false end.

(** [str(v)], which is also what an f-string field [{v}] writes. *)
Definition py_str (v : value) : str :=
  match v with
  | VNaN => lit "nan"
  | VStr s => s
  | VInt z => lit (NilZero.string_of_int (Z.to_int z))
  end.

(* ================================================================== *)
(** ** Helper functions of the script *)

(** [clean_text(text)] *)
Definition clean_text (text : value) : str :=
  if isna text then []
  else
    let text := py_str text in
    let text := re_sub_spaces false text in
    strip text.

(* ================================================================== *)
(** ** Specification-level description of whitespace normalisation *)

(** The fields of [s] delimited by single whitespace characters. *)
Fixpoint fields (s : str) : list str :=
  match s with
  | [] => [[]]
  | c :: t =>
      if isspace c then [] :: fields t
      else match fields t with
           | f :: fs => (c :: f) :: fs
           | [] => [[c]]
           end
  end.

Definition nonempty (w : str) : bool :=
  match w with [] => false | _ => true end.

(** The maximal runs of non-whitespace characters of [s], in order. *)
Definition words (s : str) : list str := filter nonempty (fields s).

(** Collapse every maximal whitespace run to one space and trim both ends:
    the words of [s] separated by single spaces. *)
Definition normalize_spec (s : str) : str := join [SPACE] (words s).

(** No whitespace at either end, and every whitespace character inside is a
    single U+0020 between two non-whitespace characters. *)
Fixpoint single_spaced (s : str) : bool :=
  match s with
  | [] => true
  | c :: t =>
      (if isspace c
       then (c =? SPACE)%N && match t with
                              | [] => false
                              | d :: _ => negb (isspace d)
                              end
       else true) && single_spaced t
  end.

Definition normalized (s : str) : bool :=
  match s with
  | [] => true
  | c :: _ => negb (isspace c) && single_spaced s
  end.

(* ================================================================== *)
(** ** The document tree built through python-docx *)

Inductive Length :=
| Inches (q : Q)
| Pt (n : Z).

Inductive RGB := RGBColor (r g b : Z).

Inductive WD_ALIGN := LEFT | CENTER | RIGHT | JUSTIFY.

(** Children of a [w:r] element. *)
Inductive RunChild :=
| BookmarkStart (id : Z) (name : str)
| BookmarkEnd (id : Z)
| Text (t : str)
| PageBreak.

Record Run := {
  run_children : list RunChild;
  bold : bool;
  italic : bool;
  font_name : option string;
  font_size : option Length;
  font_color : option RGB
}.

(** A [w:hyperlink] element with its single run. *)
Record Hyperlink := {
  hl_anchor : str;
  hl_rFonts : string;
  hl_color : string;
  hl_u : string;
  hl_sz : Z;
  hl_b : bool;
  hl_text : str
}.

Inductive ParaChild :=
| PRun (r : Run)
| PHyperlink (h : Hyperlink).

(** The [w:spacing] element of a paragraph. *)
Record Spacing := {
  sp_before : string;
  sp_after : string;
  sp_line : string;
  sp_lineRule : string
}.

Record Paragraph := {
  alignment : option WD_ALIGN;
  spacing : option Spacing;
  para_children : list ParaChild
}.

(** A border dictionary such as [{'val': 'single', 'sz': 6, 'color': ...}]. *)
Record BorderDict := {
  d_val : option string;
  d_sz : option Z;
  d_color : option string
}.

(** The keyword arguments of [set_cell_border]. *)
Record BorderKwargs := {
  kw_top : option BorderDict;
  kw_left : option BorderDict;
  kw_bottom : option BorderDict;
  kw_right : option BorderDict
}.

(** One edge element of [w:tcBorders]. *)
Record BorderEl := {
  el_edge : string;
  el_val : string;
  el_sz : Z;
  el_color : string;
  el_space : string
}.

Record Shd := { shd_fill : string; shd_val : string }.

(** One entry of [w:tcMar]: edge, [w:w] and [w:type]. *)
Record MarEl := { mar_edge : string; mar_w : Z; mar_type : string }.

Record Cell := {
  width : option Length;
  grid_span : nat;
  paragraphs : list Paragraph;
  tcBorders : option (list BorderEl);
  shd : option Shd;
  tcMar : option (list MarEl)
}.

Definition TableRow := list Cell.

Record Table := {
  tbl_alignment : option WD_ALIGN;
  autofit : bool;
  tbl_rows : list TableRow
}.

Inductive Block :=
| BParagraph (p : Paragraph)
| BTable (t : Table).

Record Section := {
  left_margin : option Length;
  right_margin : option Length;
  top_margin : option Length;
  bottom_margin : option Length
}.

Record Document := {
  sections : list Section;
  body : list Block
}.

(** *** python-docx operations used by the script *)

(** [Document()]: one section with the template's margins, empty body. *)
Definition new_Document : Document :=
  {| sections := [ {| left_margin := None; right_margin := None;
                      top_margin := None; bottom_margin := None |} ];
     body := [] |}.

Definition empty_paragraph : Paragraph :=
  {| alignment := None; spacing := None; para_children := [] |}.

(** [para.add_run(text)] before any formatting is set. *)
Definition plain_run (children : list RunChild) : Run :=
  {| run_children := children; bold := false; italic := false;
     font_name := None; font_size := None; font_color := None |}.

Definition set_alignment (a : WD_ALIGN) (p : Paragraph) : Paragraph :=
  {| alignment := Some a; spacing := spacing p;
     para_children := para_children p |}.

Definition add_run (p : Paragraph) (r : Run) : Paragraph :=
  {| alignment := alignment p; spacing := spacing p;
     para_children := para_children p ++ [PRun r] |}.

(** [para.clear()]: the content goes, the paragraph properties stay. *)
Definition clear (p : Paragraph) : Paragraph :=
  {| alignment := alignment p; spacing := spacing p; para_children := [] |}.

(** A cell as [add_table] and [add_row] create it. *)
Definition new_cell : Cell :=
  {| width := None; grid_span := 1; paragraphs := [empty_paragraph];
     tcBorders := None; shd := None; tcMar := None |}.

Definition set_width (w : Length) (c : Cell) : Cell :=
  {| width := Some w; grid_span := grid_span c; paragraphs := paragraphs c;
     tcBorders := tcBorders c; shd := shd c; tcMar := tcMar c |}.

Definition set_paragraphs (ps : list Paragraph) (c : Cell) : Cell :=
  {| width := width c; grid_span := grid_span c; paragraphs := ps;
     tcBorders := tcBorders c; shd := shd c; tcMar := tcMar c |}.

(** [cell.paragraphs[0]], updated in place by [f]. *)
Definition on_paragraph0 (f : Paragraph -> Paragraph) (c : Cell) : Cell :=
  match paragraphs c with
  | [] => c
  | p :: ps => set_paragraphs (f p :: ps) c
  end.

(** [a.merge(b)] for two fresh cells of one row: one cell spanning both
    grid columns, holding one empty paragraph. *)
Definition merge (a b : Cell) : Cell :=
  {| width := width a; grid_span := grid_span a + grid_span b;
     paragraphs := paragraphs a;
     tcBorders := tcBorders a; shd := shd a; tcMar := tcMar a |}.

(** [doc.add_table(rows=1, cols=n)] before it is filled. *)
Definition new_table (cols : nat) : Table :=
  {| tbl_alignment := None; autofit := true;
     tbl_rows := [repeat new_cell cols] |}.

Definition set_table_layout (a : WD_ALIGN) (fit : bool) (t : Table) : Table :=
  {| tbl_alignment := Some a; autofit := fit; tbl_rows := tbl_rows t |}.

Definition table_add_row (t : Table) (r : TableRow) : Table :=
  {| tbl_alignment := tbl_alignment t; autofit := autofit t;
     tbl_rows := tbl_rows t ++ [r] |}.

Definition set_row0 (r : TableRow) (t : Table) : Table :=
  {| tbl_alignment := tbl_alignment t; autofit := autofit t;
     tbl_rows := r :: tl (tbl_rows t) |}.

(** *** Helper functions of the script working on the markup *)

Definition border_el (edge : string) (d : BorderDict) : BorderEl :=
  {| el_edge := edge;
     el_val := match d_val d with Some v => v | None => "single"%string end;
     el_sz := match d_sz d with Some z => z | None => 4%Z end;
     el_color := match d_color d with Some c => c | None => "000000"%string end;
     el_space := "0"%string |}.

Definition no_borders : BorderKwargs :=
  {| kw_top := None; kw_left := None; kw_bottom := None; kw_right := None |}.

(** [set_cell_border(cell, **kwargs)] *)
Definition set_cell_border (cell : Cell) (kwargs : BorderKwargs) : Cell :=
  let edge (name : string) (d : option BorderDict) : list BorderEl :=
    match d with Some d => [border_el name d] | None => [] end in
  let tcb := edge "top"%string (kw_top kwargs)
             ++ edge "left"%string (kw_left kwargs)
             ++ edge "bottom"%string (kw_bottom kwargs)
             ++ edge "right"%string (kw_right kwargs) in
  {| width := width cell; grid_span := grid_span cell;
     paragraphs := paragraphs cell;
     tcBorders := Some tcb; shd := shd cell; tcMar := tcMar cell |}.

(** [set_cell_shading(cell, color)] *)
Definition set_cell_shading (cell : Cell) (color : string) : Cell :=
  {| width := width cell; grid_span := grid_span cell;
     paragraphs := paragraphs cell; tcBorders := tcBorders cell;
     shd := Some {| shd_fill := color; shd_val := "clear"%string |};
     tcMar := tcMar cell |}.

(** [set_cell_margins(cell, top, bottom, left, right)] *)
Definition set_cell_margins (cell : Cell) (top bottom left right : Z) : Cell :=
  let m (n : string) (v : Z) :=
    {| mar_edge := n; mar_w := v; mar_type := "dxa"%string |} in
  {| width := width cell; grid_span := grid_span cell;
     paragraphs := paragraphs cell; tcBorders := tcBorders cell;
     shd := shd cell;
     tcMar := Some [m "top"%string top; m "bottom"%string bottom;
                    m "left"%string left; m "right"%string right] |}.

(** [remove_paragraph_spacing(para)] *)
Definition remove_paragraph_spacing (para : Paragraph) : Paragraph :=
  {| alignment := alignment para;
     spacing := Some {| sp_before := "0"%string; sp_after := "0"%string;
                        sp_line := "240"%string;
                        sp_lineRule := "auto"%string |};
     para_children := para_children para |}.

(** The bookmark pair wrapped around the content of the run [tag]. *)
Definition bookmark_run (tag : Run) (name : str) (bid : Z) : Run :=
  {| run_children := BookmarkStart bid name :: run_children tag
                     ++ [BookmarkEnd bid];
     bold := bold tag; italic := italic tag; font_name := font_name tag;
     font_size := font_size tag; font_color := font_color tag |}.

(** Apply [f] to the first [w:r] child ([para.runs[0]]); [None] when the
    paragraph has no run of its own (a run inside a hyperlink is not one). *)
Fixpoint on_first_run (f : Run -> Run) (cs : list ParaChild)
  : option (list ParaChild) :=
  match cs with
  | [] => None
  | PRun r :: rest => Some (PRun (f r) :: rest)
  | c :: rest =>
      match on_first_run f rest with
      | Some rest' => Some (c :: rest')
      | None => None
      end
  end.

(** [add_bookmark(para, name, bid)] *)
Definition add_bookmark (para : Paragraph) (name : str) (bid : Z) : Paragraph :=
  let mark (run : Run) := bookmark_run run name bid in
  match on_first_run mark (para_children para) with
  | Some cs =>
      {| alignment := alignment para; spacing := spacing para;
         para_children := cs |}
  | None => add_run para (mark (plain_run []))
  end.

(** [add_hyperlink(para, text, anchor, font, size, bold, color)] *)
Definition add_hyperlink (para : Paragraph) (text anchor : str)
    (font : string) (size : Z) (bold : bool) (color : string) : Paragraph :=
  let hl := {| hl_anchor := anchor; hl_rFonts := font; hl_color := color;
               hl_u := "single"%string; hl_sz := (size * 2)%Z; hl_b := bold;
               hl_text := text |} in
  {| alignment := alignment para; spacing := spacing para;
     para_children := para_children para ++ [PHyperlink hl] |}.

(* ================================================================== *)
(** ** Tables read by pandas *)

Inductive exn :=
| KeyError (key : value)
| OtherError (msg : str).

Inductive result (A : Type) :=
| Ok (a : A)
| Raise (e : exn).

Arguments Ok {A} a.
Arguments Raise {A} e.

(** A row handed out by [iterrows]: the cells labelled by the columns. *)
Definition Series := list (value * value).

(** A [DataFrame]: the column labels and the rows of cells.  A cell a row
    does not have reads as missing. *)
Record DataFrame := {
  columns : list value;
  data : list (list value)
}.

(** [len(df)] *)
Definition len (df : DataFrame) : nat := List.length (data df).

(** [col in df.columns] *)
Definition has_column (df : DataFrame) (col : value) : bool :=
  existsb (value_eqb col) (columns df).

Definition series_of (cols : list value) (cells : list value) : Series :=
  combine cols (map (fun i => nth i cells VNaN) (seq 0 (List.length cols))).

(** [df.iterrows()], without the index labels the script ignores. *)
Definition iterrows (df : DataFrame) : list Series :=
  map (series_of (columns df)) (data df).

(** [row[key]] *)
Fixpoint getitem (row : Series) (key : value) : result value :=
  match row with
  | [] => Raise (KeyError key)
  | (k, v) :: rest => if value_eqb k key then Ok v else getitem rest key
  end.

(** [df[key]]: one column as the list of its cells. *)
Definition df_column (df : DataFrame) (key : value) : result (list value) :=
  if has_column df key
  then Ok (map (fun row => match getitem row key with
                           | Ok v => v
                           | Raise _ => VNaN
                           end) (iterrows df))
  else Raise (KeyError key).

(** [column == v], element by element. *)
Definition column_eq (col : list value) (v : value) : list bool :=
  map (fun x => value_eqb x v) col.

(** [df[mask]] *)
Definition df_mask (df : DataFrame) (mask : list bool) : DataFrame :=
  {| columns := columns df;
     data := map fst (filter snd (combine (data df) mask)) |}.

(* ================================================================== *)
(** ** The generator's state: bookmark counter and document *)

Record GenState := {
  bid : Z;
  doc : Document
}.

Definition M (A : Type) : Type := GenState -> result (A * GenState).

Definition ret {A} (a : A) : M A := fun st => Ok (a, st).

Definition bind {A B} (c : M A) (k : A -> M B) : M B :=
  fun st =>
    match c st with
    | Ok (a, st') => k a st'
    | Raise e => Raise e
    end.

Declare Scope gen_scope.
Delimit Scope gen_scope with gen.
Notation "x <- c ;; k" := (bind c (fun x => k))
  (at level 61, c at next level, right associativity) : gen_scope.
Notation "c ;; k" := (bind c (fun _ => k))
  (at level 61, right associativity) : gen_scope.
Open Scope gen_scope.

Definition lift {A} (r : result A) : M A :=
  fun st => match r with Ok a => Ok (a, st) | Raise e => Raise e end.

(** [next_bid()] *)
Definition next_bid : M Z :=
  fun st =>
    let st' := {| bid := (bid st + 1)%Z; doc := doc st |} in
    Ok (bid st', st').

Definition modify_doc (f : Document -> Document) : M unit :=
  fun st => Ok (tt, {| bid := bid st; doc := f (doc st) |}).

Definition append_block (b : Block) (d : Document) : Document :=
  {| sections := sections d; body := body d ++ [b] |}.

(** [doc.add_paragraph()], filled as [p]. *)
Definition doc_add_paragraph (p : Paragraph) : M unit :=
  modify_doc (append_block (BParagraph p)).

(** [doc.add_table(...)], filled as [t]. *)
Definition doc_add_table (t : Table) : M unit :=
  modify_doc (append_block (BTable t)).

(** [doc.add_page_break()]: a paragraph whose run holds a page break. *)
Definition doc_add_page_break : M unit :=
  doc_add_paragraph (add_run empty_paragraph (plain_run [PageBreak])).

(** [for _ in range(n): c] *)
Fixpoint for_range (n : nat) (c : M unit) : M unit :=
  match n with
  | O => ret tt
  | S n' => c ;; for_range n' c
  end.

(** [for idx, x in enumerate(xs): acc = body(idx, x, acc)], counting from
    [idx]. *)
Fixpoint for_enumerate {A S} (idx : nat) (xs : list A)
    (body : nat -> A -> S -> M S) (acc : S) : M S :=
  match xs with
  | [] => ret acc
  | x :: rest =>
      acc' <- body idx x acc ;;
      for_enumerate (Datatypes.S idx) rest body acc'
  end.

(* ================================================================== *)
(** ** Theme *)

Definition IMRC_NAVY : string := "1A237E".
Definition IMRC_NAVY_RGB : RGB := RGBColor 26 35 126.
Definition IMRC_GRAY : RGB := RGBColor 85 85 85.
Definition IMRC_BLACK : RGB := RGBColor 0 0 0.
Definition IMRC_WHITE : RGB := RGBColor 255 255 255.

(** [r = p.add_run(text)] followed by the assignments to [r.bold],
    [r.italic], [r.font.name], [r.font.size] and [r.font.color.rgb]. *)
Definition styled_run (text : str) (b i : bool) (name : string) (size : Z)
    (color : RGB) : Run :=
  {| run_children := [Text text]; bold := b; italic := i;
     font_name := Some name; font_size := Some (Pt size);
     font_color := Some color |}.

(** A centred paragraph holding one styled run. *)
Definition centered (r : Run) : Paragraph :=
  add_run (set_alignment CENTER empty_paragraph) r.

(** Bookmark names: [f"SUB_{sub_id}"] and [f"TOC_SUB_{sub_id}"]. *)
Definition SUB (sub_id : value) : str := lit "SUB_" ++ py_str sub_id.
Definition TOC_SUB (sub_id : value) : str := lit "TOC_SUB_" ++ py_str sub_id.

Definition col_Submission_ID : value := VStr (lit "Submission ID").
Definition col_Title : value := VStr (lit "Title").
Definition col_Authors : value := VStr (lit "Authors").
Definition col_Abstract : value := VStr (lit "Abstract").
Definition col_Decision : value := VStr (lit "Decision").

(* ================================================================== *)
(** ** Main document generator *)

(** [s.split(sep)] for a one-character separator. *)
Fixpoint split_char (sep : char) (s : str) : list str :=
  match s with
  | [] => [[]]
  | c :: t =>
      if (c =? sep)%N then [] :: split_char sep t
      else match split_char sep t with
           | f :: fs => (c :: f) :: fs
           | [] => [[c]]
           end
  end.

(** Page setup: the margins of every section. *)
Definition page_setup (d : Document) : Document :=
  {| sections :=
       map (fun _ => {| left_margin := Some (Inches 0.75);
                        right_margin := Some (Inches 0.75);
                        top_margin := Some (Inches 0.7);
                        bottom_margin := Some (Inches 0.7) |}) (sections d);
     body := body d |}.

(** The title page, up to the page break. *)
Definition title_page (track_title : str) : M unit :=
  for_range 4 (doc_add_paragraph empty_paragraph) ;;
  doc_add_paragraph
    (centered (styled_run (lit "IMRC 2025") true false "Calibri Light" 56
                 IMRC_NAVY_RGB)) ;;
  doc_add_paragraph empty_paragraph ;;
  doc_add_paragraph
    (centered (styled_run (lit "India Management Research Conference")
                 false false "Calibri" 22 IMRC_NAVY_RGB)) ;;
  doc_add_paragraph empty_paragraph ;;
  doc_add_paragraph
    (centered (styled_run (lit "IIM Ahmedabad") false false "Calibri" 18
                 IMRC_GRAY)) ;;
  doc_add_paragraph
    (centered (styled_run (lit "December 5-7, 2025") false false "Calibri" 14
                 IMRC_GRAY)) ;;
  for_range 3 (doc_add_paragraph empty_paragraph) ;;
  doc_add_paragraph
    (centered (styled_run (lit "Book of Abstracts") true false "Calibri" 36
                 IMRC_BLACK)) ;;
  doc_add_paragraph empty_paragraph ;;
  doc_add_paragraph
    (centered (styled_run (lit "Track: " ++ track_title) false false
                 "Calibri" 20 IMRC_NAVY_RGB)) ;;
  doc_add_page_break.

(** The heading of the contents, carrying the bookmark [TOC]. *)
Definition toc_heading : M unit :=
  let p := centered (styled_run (lit "Table of Contents") true false
                       "Calibri" 24 IMRC_NAVY_RGB) in
  b <- next_bid ;;
  doc_add_paragraph (add_bookmark p (lit "TOC") b) ;;
  doc_add_paragraph empty_paragraph.

Definition hdrs : list str :=
  [lit "Submission" ++ [NEWLINE] ++ lit "ID"; lit "Title"; lit "Authors"].

Definition widths : list Length := [Inches 0.8; Inches 3.5; Inches 2.5].

(** One pass of the loop over [zip(hcells, hdrs, widths)]. *)
Definition toc_header_cell (cell : Cell) (hdr : str) (w : Length) : Cell :=
  let cell := set_width w cell in
  let header_run (t : str) := styled_run t true false "Calibri" 10 IMRC_WHITE in
  let fill (para : Paragraph) : Paragraph :=
    if existsb (N.eqb NEWLINE) hdr
    then
      let parts := split_char NEWLINE hdr in
      fold_left
        (fun para (ip : nat * str) =>
           let para := add_run para (header_run (snd ip)) in
           if (Z.of_nat (fst ip) <? Z.of_nat (List.length parts) - 1)%Z
           then add_run para (plain_run [Text [NEWLINE]])
           else para)
        (combine (seq 0 (List.length parts)) parts) para
    else add_run para (header_run hdr) in
  let cell := on_paragraph0 fill cell in
  let cell := on_paragraph0 (set_alignment CENTER) cell in
  let cell := set_cell_shading cell IMRC_NAVY in
  let cell := set_cell_margins cell 40 40 40 40 in
  let cell := on_paragraph0 remove_paragraph_spacing cell in
  let b := {| d_val := Some "single"%string; d_sz := Some 6%Z;
              d_color := Some IMRC_NAVY |} in
  set_cell_border cell {| kw_top := Some b; kw_left := Some b;
                          kw_bottom := Some b; kw_right := Some b |}.

(** The contents table with its header row filled. *)
Definition toc_table : Table :=
  let tbl := set_table_layout CENTER false (new_table 3) in
  let hcells := hd [] (tbl_rows tbl) in
  let hcells :=
    map (fun chw : Cell * (str * Length) =>
           toc_header_cell (fst chw) (fst (snd chw)) (snd (snd chw)))
        (combine hcells (combine hdrs widths)) in
  set_row0 hcells tbl.

(** One pass of the loop writing the contents rows. *)
Definition toc_row (idx : nat) (row : Series) (tbl : Table) : M Table :=
  sub_id <- lift (getitem row col_Submission_ID) ;;
  title <- lift (getitem row col_Title) ;;
  let title := clean_text title in
  authors <- lift (getitem row col_Authors) ;;
  let authors := clean_text authors in
  let link (text : str) (p : Paragraph) :=
    add_hyperlink p text (SUB sub_id) "Calibri" 10 false "1A237E" in
  (* Submission ID (with bookmark for back-navigation) *)
  let c0 := set_width (Inches 0.8) new_cell in
  let c0 := on_paragraph0 clear c0 in
  let c0 := on_paragraph0 (link (py_str sub_id)) c0 in
  b <- next_bid ;;
  let c0 := on_paragraph0 (fun p => add_bookmark p (TOC_SUB sub_id) b) c0 in
  let c0 := on_paragraph0 (set_alignment CENTER) c0 in
  (* Title *)
  let c1 := set_width (Inches 3.5) new_cell in
  let c1 := on_paragraph0 clear c1 in
  let c1 := on_paragraph0 (link title) c1 in
  let c1 := on_paragraph0 (set_alignment LEFT) c1 in
  (* Authors *)
  let c2 := set_width (Inches 2.5) new_cell in
  let c2 := on_paragraph0 clear c2 in
  let c2 := on_paragraph0 (link authors) c2 in
  let c2 := on_paragraph0 (set_alignment LEFT) c2 in
  (* Alternating row colors *)
  let rc := if (idx mod 2 =? 0)%nat then "F0F4FF"%string
            else "FFFFFF"%string in
  let b := {| d_val := Some "single"%string; d_sz := Some 4%Z;
              d_color := Some "D0D0D0"%string |} in
  let cells :=
    map (fun cell =>
           let cell := set_cell_shading cell rc in
           let cell := set_cell_margins cell 50 50 60 60 in
           set_cell_border cell {| kw_top := Some b; kw_left := Some b;
                                   kw_bottom := Some b; kw_right := Some b |})
        [c0; c1; c2] in
  ret (table_add_row tbl cells).

(** One pass of the loop writing the abstract cards; [n] is
    [len(df_oral)]. *)
Definition abstract_card (n : nat) (track_title : str) (idx : nat)
    (row : Series) (_ : unit) : M unit :=
  sub_id <- lift (getitem row col_Submission_ID) ;;
  title <- lift (getitem row col_Title) ;;
  let title := clean_text title in
  authors <- lift (getitem row col_Authors) ;;
  let authors := clean_text authors in
  abstract <- lift (getitem row col_Abstract) ;;
  let abstract := clean_text abstract in
  (* Abstract table, header row *)
  let tbl := set_table_layout CENTER false (new_table 2) in
  let c1 := set_width (Inches 3.4) new_cell in
  let c2 := set_width (Inches 3.4) new_cell in
  (* Submission ID *)
  let c1 := on_paragraph0 clear c1 in
  let c1 := on_paragraph0
              (fun p => add_run p (styled_run (lit "Submission ID: "
                                               ++ py_str sub_id)
                                     true false "Calibri" 11 IMRC_WHITE)) c1 in
  b <- next_bid ;;
  let c1 := on_paragraph0 (fun p => add_bookmark p (SUB sub_id) b) c1 in
  (* Track *)
  let c2 := on_paragraph0 clear c2 in
  let c2 := on_paragraph0
              (fun p => add_run p (styled_run (lit "Track: " ++ track_title)
                                     true false "Calibri" 11 IMRC_WHITE)) c2 in
  let c2 := on_paragraph0 (set_alignment RIGHT) c2 in
  let c1 := set_cell_shading c1 IMRC_NAVY in
  let c2 := set_cell_shading c2 IMRC_NAVY in
  let c1 := set_cell_margins c1 40 40 100 100 in
  let c2 := set_cell_margins c2 40 40 100 100 in
  let c1 := on_paragraph0 remove_paragraph_spacing c1 in
  let c2 := on_paragraph0 remove_paragraph_spacing c2 in
  let bn := Some {| d_val := Some "single"%string; d_sz := Some 10%Z;
                    d_color := Some IMRC_NAVY |} in
  let c1 := set_cell_border c1 {| kw_top := bn; kw_left := bn;
                                  kw_bottom := bn; kw_right := None |} in
  let c2 := set_cell_border c2 {| kw_top := bn; kw_left := None;
                                  kw_bottom := bn; kw_right := bn |} in
  let tbl := set_row0 [c1; c2] tbl in
  (* Title row *)
  let tc := merge new_cell new_cell in
  let tc := on_paragraph0 clear tc in
  let tc := on_paragraph0
              (fun p => add_run p (styled_run title true false "Calibri" 13
                                     IMRC_NAVY_RGB)) tc in
  let tc := on_paragraph0 (set_alignment CENTER) tc in
  let tc := on_paragraph0 remove_paragraph_spacing tc in
  let tc := set_cell_border tc {| kw_top := None; kw_left := bn;
                                  kw_bottom := None; kw_right := bn |} in
  let tbl := table_add_row tbl [tc] in
  (* Authors row *)
  let ac := merge new_cell new_cell in
  let ac := on_paragraph0 clear ac in
  let ac := on_paragraph0
              (fun p => add_run p (styled_run authors false true "Calibri" 11
                                     IMRC_GRAY)) ac in
  let ac := on_paragraph0 (set_alignment CENTER) ac in
  let ac := set_cell_shading ac "F5F7FC" in
  let ac := on_paragraph0 remove_paragraph_spacing ac in
  let ac := set_cell_border ac {| kw_top := None; kw_left := bn;
                                  kw_bottom := None; kw_right := bn |} in
  let tbl := table_add_row tbl [ac] in
  (* Abstract row *)
  let abc := merge new_cell new_cell in
  let abc := on_paragraph0 clear abc in
  let abc := on_paragraph0
               (fun abp => add_run abp (styled_run (lit "Abstract: ") true
                                          false "Calibri" 11 IMRC_NAVY_RGB))
               abc in
  let abc := on_paragraph0
               (fun abp => add_run abp (styled_run abstract false false
                                          "Calibri" 11 IMRC_BLACK)) abc in
  let abc := on_paragraph0 (set_alignment JUSTIFY) abc in
  let abc := set_cell_margins abc 80 80 100 100 in
  let abc := set_cell_border abc {| kw_top := None; kw_left := bn;
                                    kw_bottom := bn; kw_right := bn |} in
  let tbl := table_add_row tbl [abc] in
  doc_add_table tbl ;;
  (* Back to TOC (links to specific row in TOC) *)
  let np := set_alignment RIGHT empty_paragraph in
  let np := add_hyperlink np ([8593%N] ++ lit " Back to Contents")
              (TOC_SUB sub_id) "Calibri" 9 false IMRC_NAVY in
  doc_add_paragraph np ;;
  (* Spacing between abstracts *)
  if (Z.of_nat idx <? Z.of_nat n - 1)%Z
  then
    doc_add_paragraph
      (add_run empty_paragraph
         {| run_children := []; bold := false; italic := false;
            font_name := None; font_size := Some (Pt 8);
            font_color := None |})
  else ret tt.

(** The body of [create_book_of_abstracts] over the generator's state. *)
Definition build (df_oral : DataFrame) (track_title : str) : M unit :=
  modify_doc page_setup ;;
  title_page track_title ;;
  toc_heading ;;
  tbl <- for_enumerate 0 (iterrows df_oral) toc_row toc_table ;;
  doc_add_table tbl ;;
  doc_add_page_break ;;
  for_enumerate 0 (iterrows df_oral)
    (abstract_card (len df_oral) track_title) tt.

(** [create_book_of_abstracts(df_oral, track_title)] *)
Definition create_book_of_abstracts (df_oral : DataFrame) (track_title : str)
  : result Document :=
  match build df_oral track_title {| bid := 0; doc := new_Document |} with
  | Ok (_, st) => Ok (doc st)
  | Raise e => Raise e
  end.

(* ================================================================== *)
(** ** Entry point *)

(** What [pd.read_excel(input_file)] does. *)
Inductive read_result :=
| FileNotFoundError
| ReadException (e : str)
| ReadOk (df : DataFrame).

(** What [doc.save(output_file)] does. *)
Inductive save_result :=
| Saved
| PermissionError
| SaveException (e : str).

(** The file system as the script meets it. *)
Record World := {
  read_excel : str -> read_result;
  save : Document -> str -> save_result
}.

(** A printed line; [LineRepr prefix l] is [prefix] followed by the [repr]
    of the list [l]. *)
Inductive line :=
| Line (s : str)
| LineRepr (prefix : str) (l : list value).

(** How the process ends: [sys.exit(code)], falling off the end of
    [main] (code 0), or an uncaught exception (code 1). *)
Inductive termination :=
| Exit (code : Z)
| Uncaught (e : exn).

Definition exit_code (t : termination) : Z :=
  match t with
  | Exit code => code
  | Uncaught _ => 1%Z
  end.

Record Outcome := {
  stdout : list line;
  status : termination;
  written : option (str * Document)
}.

(** Truth value of a list: it is non-empty. *)
Definition nonempty_list {A} (l : list A) : bool :=
  match l with [] => false | _ => true end.

Definition required_cols : list value :=
  [col_Submission_ID; col_Title; col_Authors; col_Abstract; col_Decision].

Definition Oral_Presentation : value := VStr (lit "Oral Presentation").

(** The parsing of [sys.argv] at the head of [main]: input file, output
    file and track title. *)
Definition parse_argv (argv : list str) : str * str * str :=
  let input_file := lit "IMRC2025_submissions.xlsx" in
  let output_file := lit "IMRC2025_Book_of_Abstracts.docx" in
  let track_title := lit "FAE" in
  let input_file :=
    if (2 <=? List.length argv)%nat then nth 1 argv [] else input_file in
  let output_file :=
    if (3 <=? List.length argv)%nat then nth 2 argv [] else output_file in
  let track_title :=
    if (4 <=? List.length argv)%nat then nth 3 argv [] else track_title in
  (input_file, output_file, track_title).

(** [str(n)] for a length. *)
Definition str_of_nat (n : nat) : str := py_str (VInt (Z.of_nat n)).

Definition rule : str := repeat 61%N 60.

(** [main()] *)
Definition main (argv : list str) (w : World) : Outcome :=
  let '(input_file, output_file, track_title) := parse_argv argv in
  let out :=
    [ Line rule;
      Line (lit "IMRC 2025 Book of Abstracts Generator");
      Line rule;
      Line ([NEWLINE] ++ lit "Input file:  " ++ input_file);
      Line (lit "Output file: " ++ output_file);
      Line (lit "Track:       " ++ track_title);
      Line [];
      Line (lit "Reading Excel file...") ] in
  match read_excel w input_file with
  | FileNotFoundError =>
      {| stdout := out ++ [Line (lit "ERROR: File not found: " ++ input_file)];
         status := Exit 1; written := None |}
  | ReadException e =>
      {| stdout := out ++ [Line (lit "ERROR: Could not read Excel file: "
                                 ++ e)];
         status := Exit 1; written := None |}
  | ReadOk df =>
      (* Check required columns *)
      let missing_cols :=
        filter (fun col => negb (has_column df col)) required_cols in
      if nonempty_list missing_cols
      then
        {| stdout := out ++
             [ LineRepr (lit "ERROR: Missing required columns: ") missing_cols;
               LineRepr (lit "Available columns: ") (columns df) ];
           status := Exit 1; written := None |}
      else
        (* Filter for Oral Presentations *)
        match df_column df col_Decision with
        | Raise e => {| stdout := out; status := Uncaught e; written := None |}
        | Ok decision =>
            let df_oral := df_mask df (column_eq decision Oral_Presentation) in
            let out := out ++
              [ Line (lit "Found " ++ str_of_nat (len df_oral)
                      ++ lit " Oral Presentations") ] in
            if (len df_oral =? 0)%nat
            then
              {| stdout := out ++
                   [ Line (lit "ERROR: No oral presentations found in the data.") ];
                 status := Exit 1; written := None |}
            else
              (* Generate document *)
              let out := out ++
                [ Line ([NEWLINE] ++ lit "Generating Book of Abstracts...") ] in
              match create_book_of_abstracts df_oral track_title with
              | Raise e =>
                  {| stdout := out; status := Uncaught e; written := None |}
              | Ok doc =>
                  (* Save document *)
                  let out := out ++
                    [ Line (lit "Saving to " ++ output_file ++ lit "...") ] in
                  match save w doc output_file with
                  | PermissionError =>
                      {| stdout := out ++
                           [ Line (lit "ERROR: Cannot save file. Please close "
                                   ++ output_file ++ lit " if it's open.") ];
                         status := Exit 1; written := None |}
                  | SaveException e =>
                      {| stdout := out; status := Uncaught (OtherError e);
                         written := None |}
                  | Saved =>
                      {| stdout := out ++
                           [ Line ([NEWLINE] ++ rule);
                             Line ([9989%N] ++ lit " SUCCESS!");
                             Line rule;
                             Line ([NEWLINE] ++ lit "Generated: "
                                   ++ output_file);
                             Line (lit "Total abstracts: "
                                   ++ str_of_nat (len df_oral));
                             Line ([NEWLINE] ++ lit "Document includes:");
                             Line (lit "  " ++ [8226%N]
                                   ++ lit " Title page with IMRC 2025 branding");
                             Line (lit "  " ++ [8226%N]
                                   ++ lit " Table of Contents with hyperlinks");
                             Line (lit "  " ++ [8226%N]
                                   ++ lit " All abstracts with navigation links")
                           ];
                         status := Exit 0;
                         written := Some (output_file, doc) |}
                  end
              end
        end
  end.

(* ================================================================== *)
(** ** Reading a document: its outline *)

(** What a paragraph holds, in document order, with the styling erased. *)
Inductive Mark :=
| MStart (id : Z) (name : str)
| MEnd (id : Z)
| MLink (anchor text : str)
| MText (t : str)
| MBreak.

Definition run_marks (r : Run) : list Mark :=
  map (fun c => match c with
                | BookmarkStart i n => MStart i n
                | BookmarkEnd i => MEnd i
                | Text t => MText t
                | PageBreak => MBreak
                end) (run_children r).

Definition para_marks (p : Paragraph) : list Mark :=
  flat_map (fun c => match c with
                     | PRun r => run_marks r
                     | PHyperlink h => [MLink (hl_anchor h) (hl_text h)]
                     end) (para_children p).

Definition cell_marks (c : Cell) : list Mark :=
  flat_map para_marks (paragraphs c).

(** A table row as the marks of its cells. *)
Definition RowMarks := list (list Mark).

Inductive Outline :=
| OPara (ms : list Mark)
| OTable (rows : list RowMarks).

Definition block_outline (b : Block) : Outline :=
  match b with
  | BParagraph p => OPara (para_marks p)
  | BTable t => OTable (map (map cell_marks) (tbl_rows t))
  end.

Definition outline (d : Document) : list Outline :=
  map block_outline (body d).

Definition outline_marks (o : Outline) : list Mark :=
  match o with
  | OPara ms => ms
  | OTable rows => List.concat (List.concat rows)
  end.

(** Bookmarks (numeric id and name) among some marks, in order. *)
Definition bookmarks (ms : list Mark) : list (Z * str) :=
  flat_map (fun m => match m with MStart i n => [(i, n)] | _ => [] end) ms.

(** Hyperlinks (anchor and text) among some marks, in order. *)
Definition links (ms : list Mark) : list (str * str) :=
  flat_map (fun m => match m with MLink a t => [(a, t)] | _ => [] end) ms.

(** Run texts among some marks, in order. *)
Definition texts (ms : list Mark) : list str :=
  flat_map (fun m => match m with MText t => [t] | _ => [] end) ms.

(** Every bookmark of the document, in document order. *)
Definition doc_bookmarks (d : Document) : list (Z * str) :=
  bookmarks (flat_map outline_marks (outline d)).

(** The paragraphs at the head of a list of blocks. *)
Fixpoint leading_paragraphs (os : list Outline) : list (list Mark) :=
  match os with
  | OPara ms :: rest => ms :: leading_paragraphs rest
  | _ => []
  end.

(** Every table of the document with the paragraphs that follow it up to
    the next table. *)
Fixpoint table_sections (os : list Outline)
  : list (list RowMarks * list (list Mark)) :=
  match os with
  | [] => []
  | OTable rows :: rest => (rows, leading_paragraphs rest) :: table_sections rest
  | OPara _ :: rest => table_sections rest
  end.

(** The rows of the contents table below its header row. *)
Definition contents_rows (d : Document) : list RowMarks :=
  match table_sections (outline d) with
  | (rows, _) :: _ => tl rows
  | [] => []
  end.

(** The abstract cards: every table after the contents table, with the
    paragraphs that follow it. *)
Definition cards (d : Document) : list (list RowMarks * list (list Mark)) :=
  tl (table_sections (outline d)).

Definition row_bookmarks (r : RowMarks) : list (Z * str) :=
  bookmarks (List.concat r).

Definition card_bookmarks (c : list RowMarks * list (list Mark))
  : list (Z * str) :=
  bookmarks (List.concat (List.concat (fst c)) ++ List.concat (snd c)).

(** The links of a contents row, cell by cell. *)
Definition row_links (r : RowMarks) : list (list (str * str)) :=
  map links r.

(** The links of a card: those of its table, then those below it. *)
Definition card_links (c : list RowMarks * list (list Mark))
  : list (str * str) :=
  links (List.concat (List.concat (fst c)) ++ List.concat (snd c)).


(* ================================================================== *)
(** ** The records of a table *)

Record Submission := {
  s_id : value;
  s_title : value;
  s_authors : value;
  s_abstract : value
}.

Definition cell_of (row : Series) (key : value) : value :=
  match getitem row key with
  | Ok v => v
  | Raise _ => VNaN
  end.

Definition submission_of (row : Series) : Submission :=
  {| s_id := cell_of row col_Submission_ID;
     s_title := cell_of row col_Title;
     s_authors := cell_of row col_Authors;
     s_abstract := cell_of row col_Abstract |}.

Definition submissions (df : DataFrame) : list Submission :=
  map submission_of (iterrows df).

(** The table has the four columns [create_book_of_abstracts] reads. *)
Definition has_record_columns (df : DataFrame) : bool :=
  forallb (has_column df)
    [col_Submission_ID; col_Title; col_Authors; col_Abstract].

(** The table has every column [main] requires. *)
Definition has_required_columns (df : DataFrame) : bool :=
  forallb (has_column df) required_cols.

(** The status of a row of the table: its [Decision] cell. *)
Definition decision_of (df : DataFrame) (cells : list value) : value :=
  cell_of (series_of (columns df) cells) col_Decision.

Definition is_oral (df : DataFrame) (cells : list value) : bool :=
  value_eqb (decision_of df cells) Oral_Presentation.

(** The rows of the table whose status is the target literal. *)
Definition oral_rows (df : DataFrame) : DataFrame :=
  {| columns := columns df; data := filter (is_oral df) (data df) |}.

Definition back_text : str := [8593%N] ++ lit " Back to Contents".

(** The outline of the contents row of a record whose bookmark id is [b]. *)
Definition contents_row_outline (b : Z) (s : Submission) : RowMarks :=
  [ [MLink (SUB (s_id s)) (py_str (s_id s));
     MStart b (TOC_SUB (s_id s)); MEnd b];
    [MLink (SUB (s_id s)) (clean_text (s_title s))];
    [MLink (SUB (s_id s)) (clean_text (s_authors s))] ].

(** The outline of the card of a record whose bookmark id is [b]. *)
Definition card_outline (track_title : str) (last : bool) (b : Z)
    (s : Submission) : list Outline :=
  [ OTable
      [ [ [MStart b (SUB (s_id s));
           MText (lit "Submission ID: " ++ py_str (s_id s)); MEnd b];
          [MText (lit "Track: " ++ track_title)] ];
        [ [MText (clean_text (s_title s))] ];
        [ [MText (clean_text (s_authors s))] ];
        [ [MText (lit "Abstract: "); MText (clean_text (s_abstract s))] ] ];
    OPara [MLink (TOC_SUB (s_id s)) back_text] ]
  ++ (if last then [] else [OPara []]).

(** Number the elements of a list from [k]. *)
Fixpoint number {A} (k : Z) (l : list A) : list (Z * A) :=
  match l with
  | [] => []
  | x :: rest => (k, x) :: number (k + 1) rest
  end.

Definition title_page_outline (track_title : str) : list Outline :=
  [ OPara []; OPara []; OPara []; OPara [];
    OPara [MText (lit "IMRC 2025")];
    OPara [];
    OPara [MText (lit "India Management Research Conference")];
    OPara [];
    OPara [MText (lit "IIM Ahmedabad")];
    OPara [MText (lit "December 5-7, 2025")];
    OPara []; OPara []; OPara [];
    OPara [MText (lit "Book of Abstracts")];
    OPara [];
    OPara [MText (lit "Track: " ++ track_title)];
    OPara [MBreak] ].

Definition contents_header_outline : RowMarks :=
  [ [MText (lit "Submission"); MText [NEWLINE]; MText (lit "ID")];
    [MText (lit "Title")];
    [MText (lit "Authors")] ].

(** The cards of the records [ss], already numbered with their bookmark ids;
    a spacer paragraph follows every card but the last. *)
Fixpoint cards_outline (track_title : str) (ss : list (Z * Submission))
  : list Outline :=
  match ss with
  | [] => []
  | (b, s) :: rest =>
      card_outline track_title (negb (nonempty_list rest)) b s
      ++ cards_outline track_title rest
  end.

(** The outline of the whole book for the records [ss]. *)
Definition book_outline (track_title : str) (ss : list Submission)
  : list Outline :=
  let n := Z.of_nat (List.length ss) in
  title_page_outline track_title
  ++ [ OPara [MStart 1 (lit "TOC"); MText (lit "Table of Contents"); MEnd 1];
       OPara [];
       OTable (contents_header_outline
               :: map (fun bs => contents_row_outline (fst bs) (snd bs))
                    (number 2 ss));
       OPara [MBreak] ]
  ++ cards_outline track_title (number (n + 2) ss).

(* ================================================================== *)
(** ** What a record shows in the book *)

(** The links of the contents row of a record, cell by cell: identifier,
    title and authors, each pointing at the record's card. *)
Definition record_row_links (s : Submission) : list (list (str * str)) :=
  [ [(SUB (s_id s), py_str (s_id s))];
    [(SUB (s_id s), clean_text (s_title s))];
    [(SUB (s_id s), clean_text (s_authors s))] ].


(** A word: a non-empty string without whitespace. *)
Definition is_word (w : str) : bool :=
  nonempty w && forallb (fun c => negb (isspace c)) w.

(** How many bookmarks of the document carry the name [name]. *)
Definition bookmark_count (d : Document) (name : str) : nat :=
  count_occ (list_eq_dec N.eq_dec) (map snd (doc_bookmarks d)) name.

(* ================================================================== *)
(** ** Reading the outcome of a run *)

Fixpoint starts_with (prefix s : str) : bool :=
  match prefix, s with
  | [], _ => true
  | p :: prefix', c :: s' => (p =? c)%N && starts_with prefix' s'
  | _ :: _, [] => false
  end.

(** A printed line that reports an error. *)
Definition is_error_line (l : line) : bool :=
  match l with
  | Line s => starts_with (lit "ERROR: ") s
  | LineRepr prefix _ => starts_with (lit "ERROR: ") prefix
  end.

(** The lines printed before the table is checked. *)
Definition preamble (input_file output_file track_title : str) : list line :=
  [ Line rule;
    Line (lit "IMRC 2025 Book of Abstracts Generator");
    Line rule;
    Line ([NEWLINE] ++ lit "Input file:  " ++ input_file);
    Line (lit "Output file: " ++ output_file);
    Line (lit "Track:       " ++ track_title);
    Line [];
    Line (lit "Reading Excel file...") ].

Definition input_file_of (argv : list str) : str := fst (fst (parse_argv argv)).
Definition output_file_of (argv : list str) : str := snd (fst (parse_argv argv)).
Definition track_title_of (argv : list str) : str := snd (parse_argv argv).

(** The required columns the table lacks. *)
Definition missing_columns (df : DataFrame) : list value :=
  filter (fun col => negb (has_column df col)) required_cols.

(* ================================================================== *)
(** ** Sample inputs *)

Definition sample_columns : list value :=
  [col_Submission_ID; col_Title; col_Authors; col_Abstract; col_Decision].

Definition sample_df : DataFrame :=
  {| columns := sample_columns;
     data :=
       [ [VInt 12; VStr (lit "Credit  risk"); VStr (lit "A. Rao");
          VStr (lit " We study defaults. "); Oral_Presentation];
         [VInt 15; VStr (lit "Liquidity"); VStr (lit "B. Shah");
          VStr (lit "Markets dry up."); VStr (lit "Poster")];
         [VInt 21; VStr (lit "Pricing"); VNaN;
          VStr (lit "Options."); Oral_Presentation] ] |}.

(** Two accepted records that share the identifier 12. *)
Definition duplicate_df : DataFrame :=
  {| columns := sample_columns;
     data :=
       [ [VInt 12; VStr (lit "Credit risk"); VStr (lit "A. Rao");
          VStr (lit "Defaults."); Oral_Presentation];
         [VInt 12; VStr (lit "Pricing"); VStr (lit "C. Iyer");
          VStr (lit "Options."); Oral_Presentation] ] |}.

(** A table without the [Abstract] and [Decision] columns. *)
Definition incomplete_df : DataFrame :=
  {| columns := [col_Submission_ID; col_Title; col_Authors];
     data := [ [VInt 12; VStr (lit "Credit risk"); VStr (lit "A. Rao")] ] |}.

(** A table in which no row is an oral presentation. *)
Definition poster_df : DataFrame :=
  {| columns := sample_columns;
     data :=
       [ [VInt 15; VStr (lit "Liquidity"); VStr (lit "B. Shah");
          VStr (lit "Markets dry up."); VStr (lit "Poster")];
         [VInt 16; VStr (lit "Hedging"); VStr (lit "D. Nair");
          VStr (lit "Futures."); VNaN] ] |}.

(** A file system holding the table [df] under every name, on which every
    save succeeds. *)
Definition sample_world (df : DataFrame) : World :=
  {| read_excel := fun _ => ReadOk df;
     save := fun _ _ => Saved |}.

(* ================================================================== *)
(** ** Further readings of a document *)

(** Every mark of the document, in document order. *)
Definition doc_marks (d : Document) : list Mark :=
  flat_map outline_marks (outline d).

(** Every hyperlink (anchor and text) of the document, in document order. *)
Definition doc_links (d : Document) : list (str * str) :=
  links (doc_marks d).

(** The ids of the bookmark ends among some marks, in order. *)
Definition bookmark_ends (ms : list Mark) : list Z :=
  flat_map (fun m => match m with MEnd i => [i] | _ => [] end) ms.

(** Bookmarks open and close one at a time: a start is met only when no
    bookmark is open, an end only for the open bookmark and with its id, and
    none is left open. [opened] is the id of the open bookmark. *)
Fixpoint well_bracketed (opened : option Z) (ms : list Mark) : bool :=
  match ms with
  | [] => match opened with None => true | Some _ => false end
  | MStart i _ :: rest =>
      match opened with
      | None => well_bracketed (Some i) rest
      | Some _ => false
      end
  | MEnd i :: rest =>
      match opened with
      | Some j => (i =? j)%Z && well_bracketed None rest
      | None => false
      end
  | _ :: rest => well_bracketed opened rest
  end.

Definition is_hyperlink (c : ParaChild) : bool :=
  match c with PHyperlink _ => true | PRun _ => false end.

(** The tables of the body, in order. *)
Definition doc_tables (d : Document) : list Table :=
  flat_map (fun b => match b with BTable t => [t] | BParagraph _ => [] end)
    (body d).

(** The rows of the contents table below its header row, as cells. *)
Definition contents_table_rows (d : Document) : list TableRow :=
  match doc_tables d with
  | t :: _ => tl (tbl_rows t)
  | [] => []
  end.

(** The header row of the contents table, as cells. *)
Definition contents_table_header (d : Document) : TableRow :=
  match doc_tables d with
  | t :: _ => hd [] (tbl_rows t)
  | [] => []
  end.

(** The background of a cell: the fill of its [w:shd]. *)
Definition cell_fill (c : Cell) : option string :=
  option_map shd_fill (shd c).

(** The background of the contents row at position [idx]. *)
Definition row_color (idx : nat) : string :=
  if Nat.even idx then "F0F4FF" else "FFFFFF".

(** The four columns a record is read from, in the order of the lookups. *)
Definition record_cols : list value :=
  [col_Submission_ID; col_Title; col_Authors; col_Abstract].

(** The first column of a record the table lacks. *)
Definition first_missing (df : DataFrame) : option value :=
  find (fun col => negb (has_column df col)) record_cols.



(** The last printed line. *)
Definition last_line (o : Outcome) : option line :=
  match rev (stdout o) with
  | l :: _ => Some l
  | [] => None
  end.

(** A file system on which the input file does not exist. *)
Definition no_file_world : World :=
  {| read_excel := fun _ => FileNotFoundError;
     save := fun _ _ => Saved |}.

(** A file system holding [df] on which the output file cannot be
    written. *)
Definition locked_world (df : DataFrame) : World :=
  {| read_excel := fun _ => ReadOk df;
     save := fun _ _ => PermissionError |}.


(** A table without a column of authors. *)
Definition no_authors_df : DataFrame :=
  {| columns := [col_Submission_ID; col_Title; col_Abstract; col_Decision];
     data := [ [VInt 12; VStr (lit "Credit risk"); VStr (lit "Defaults.");
                Oral_Presentation] ] |}.

(** A table without rows and without columns. *)
Definition empty_df : DataFrame := {| columns := []; data := [] |}.

(** A character that is not whitespace. *)
Definition nonspace (c : char) : bool := negb (isspace c).

(** The widths of the three columns of the contents table. *)
Definition contents_widths : list (option Length) :=
  [Some (Inches 0.8); Some (Inches 3.5); Some (Inches 2.5)].

(** A row that answers the lookups of the four columns of a record. *)
Definition row_ok (row : Series) : Prop :=
  (exists v, getitem row col_Submission_ID = Ok v)
  /\ (exists v, getitem row col_Title = Ok v)
  /\ (exists v, getitem row col_Authors = Ok v)
  /\ (exists v, getitem row col_Abstract = Ok v).

(* ================================================================== *)
(** * Properties *)

(** ** Whitespace normalisation *)

Lemma isspace_SPACE : isspace SPACE = true.
Proof. reflexivity. Qed.

Lemma lstrip_head_nonspace c t : isspace c = false -> lstrip (c :: t) = c :: t.
Proof. intros H. simpl. now rewrite H. Qed.

Lemma re_sub_in_match_lstrip s :
  lstrip (re_sub_spaces true s) = re_sub_spaces true s.
Proof.
  induction s as [|c t IH]; simpl; [reflexivity|].
  destruct (isspace c) eqn:E; [exact IH|].
  simpl. now rewrite E.
Qed.

Lemma lstrip_re_sub s :
  lstrip (re_sub_spaces false s) = re_sub_spaces true s.
Proof.
  destruct s as [|c t]; simpl; [reflexivity|].
  destruct (isspace c) eqn:E.
  - simpl. apply re_sub_in_match_lstrip.
  - simpl. now rewrite E.
Qed.

Lemma fields_not_nil s : fields s <> [].
Proof.
  destruct s as [|c t]; simpl; [discriminate|].
  destruct (isspace c); [discriminate|].
  destruct (fields t); discriminate.
Qed.

Lemma words_space c t : isspace c = true -> words (c :: t) = words t.
Proof. intros H. unfold words. simpl. now rewrite H. Qed.

(** Shape of the words of a string that starts with a non-space. *)
Lemma words_nonspace c t :
  isspace c = false ->
  words (c :: t) =
    match t with
    | [] => [[c]]
    | d :: _ =>
        if isspace d then [c] :: words t
        else match words t with
             | w :: ws => (c :: w) :: ws
             | [] => [[c]]
             end
    end.
Proof.
  intros H. unfold words. simpl. rewrite H.
  destruct t as [|d t']; [reflexivity|].
  simpl. destruct (isspace d) eqn:E; [reflexivity|].
  destruct (fields t') as [|f fs] eqn:F.
  - now destruct (fields_not_nil _ F).
  - reflexivity.
Qed.

Lemma words_head_nonspace c t :
  isspace c = false -> words (c :: t) <> [].
Proof.
  intros H. rewrite (words_nonspace _ _ H).
  destruct t as [|d t']; [discriminate|].
  destruct (isspace d); [discriminate|].
  destruct (words (d :: t')); discriminate.
Qed.

Lemma join_nil_iff (ws : list str) :
  Forall (fun w => w <> []) ws -> join [SPACE] ws = [] -> ws = [].
Proof.
  intros F. destruct ws as [|w ws]; [reflexivity|].
  inversion F as [|? ? Hw _]; subst.
  destruct w; [congruence|]. destruct ws; simpl; discriminate.
Qed.

Lemma words_nonempty s : Forall (fun w => w <> []) (words s).
Proof.
  unfold words. apply Forall_forall. intros w Hw.
  apply filter_In in Hw. destruct Hw as [_ Hw]. destruct w; [discriminate|congruence].
Qed.

Lemma join_cons_head c w ws :
  join [SPACE] ((c :: w) :: ws) = c :: join [SPACE] (w :: ws).
Proof. destruct ws; reflexivity. Qed.

Lemma rstrip_cons_nonspace c t :
  isspace c = false -> rstrip (c :: t) = c :: rstrip t.
Proof. intros H. simpl. rewrite H. destruct (rstrip t); reflexivity. Qed.

Lemma rstrip_cons_space c t :
  isspace c = true ->
  rstrip (c :: t) = match rstrip t with [] => [] | r => c :: r end.
Proof. intros H. simpl. rewrite H. reflexivity. Qed.

(** The two scanner states against the words of the input. *)
Lemma rstrip_re_sub s :
  rstrip (re_sub_spaces true s) = join [SPACE] (words s)
  /\ rstrip (re_sub_spaces false s) =
       match s with
       | [] => []
       | c :: _ =>
           if isspace c
           then match words s with
                | [] => []
                | ws => SPACE :: join [SPACE] ws
                end
           else join [SPACE] (words s)
       end.
Proof.
  induction s as [|c t [IHt IHf]]; [split; reflexivity|].
  destruct (isspace c) eqn:E.
  - rewrite (words_space _ _ E). simpl re_sub_spaces. rewrite E.
    split; [exact IHt|].
    rewrite (rstrip_cons_space _ _ isspace_SPACE), IHt.
    destruct (words t) as [|w ws] eqn:W; [reflexivity|].
    destruct (join [SPACE] (w :: ws)) eqn:J; [|reflexivity].
    apply join_nil_iff in J; [discriminate|]. rewrite <- W. apply words_nonempty.
  - assert (R : rstrip (c :: re_sub_spaces false t) = join [SPACE] (words (c :: t))).
    { rewrite (rstrip_cons_nonspace _ _ E), IHf, (words_nonspace _ _ E).
      destruct t as [|d t']; [reflexivity|].
      destruct (isspace d) eqn:D.
      - destruct (words (d :: t')) as [|w ws]; reflexivity.
      - pose proof (words_head_nonspace _ t' D) as NE.
        destruct (words (d :: t')) as [|w ws]; [congruence|].
        now rewrite join_cons_head. }
    simpl re_sub_spaces. rewrite E. split; exact R.
Qed.

Lemma strip_re_sub s :
  strip (re_sub_spaces false s) = normalize_spec s.
Proof.
  unfold strip, normalize_spec. rewrite lstrip_re_sub. apply rstrip_re_sub.
Qed.

Lemma fields_no_space s :
  Forall (fun f => forallb (fun c => negb (isspace c)) f = true) (fields s).
Proof.
  induction s as [|c t IH]; simpl.
  - repeat constructor.
  - destruct (isspace c) eqn:E.
    + constructor; [reflexivity|exact IH].
    + destruct (fields t) as [|f fs].
      * repeat constructor. simpl. now rewrite E.
      * inversion IH; subst. constructor; [|assumption].
        simpl. rewrite E. assumption.
Qed.

Lemma words_are_words s : Forall (fun w => is_word w = true) (words s).
Proof.
  unfold words. apply Forall_forall. intros w Hw.
  apply filter_In in Hw. destruct Hw as [Hin Hne].
  unfold is_word. rewrite Hne. simpl.
  exact (proj1 (Forall_forall _ _) (fields_no_space s) w Hin).
Qed.

Lemma fields_app_word w s :
  forallb (fun c => negb (isspace c)) w = true ->
  fields (w ++ s) = (w ++ hd [] (fields s)) :: tl (fields s).
Proof.
  induction w as [|c w IH]; simpl; intros H.
  - destruct (fields s) eqn:F; [now destruct (fields_not_nil _ F)|reflexivity].
  - apply andb_prop in H. destruct H as [Hc Hw].
    apply negb_true_iff in Hc. rewrite Hc, (IH Hw). reflexivity.
Qed.

Lemma words_join ws :
  Forall (fun w => is_word w = true) ws -> words (join [SPACE] ws) = ws.
Proof.
  induction ws as [|w ws IH]; intros F; [reflexivity|].
  inversion F as [|? ? Hw Fws]; subst.
  unfold is_word in Hw. apply andb_prop in Hw. destruct Hw as [Hne Hns].
  destruct ws as [|w' ws'].
  - simpl. unfold words. rewrite <- (app_nil_r w) at 1.
    rewrite (fields_app_word _ _ Hns). simpl. rewrite app_nil_r, Hne. reflexivity.
  - change (join [SPACE] (w :: w' :: ws')) with (w ++ SPACE :: join [SPACE] (w' :: ws')).
    unfold words. rewrite (fields_app_word _ _ Hns).
    cbn [fields]. rewrite isspace_SPACE. cbn [hd tl].
    rewrite app_nil_r. simpl filter. rewrite Hne.
    f_equal. exact (IH Fws).
Qed.

Lemma single_spaced_app_word w s :
  forallb (fun c => negb (isspace c)) w = true ->
  single_spaced (w ++ s) = single_spaced s.
Proof.
  induction w as [|c w IH]; simpl; intros H; [reflexivity|].
  apply andb_prop in H. destruct H as [Hc Hw].
  apply negb_true_iff in Hc. rewrite Hc. simpl. exact (IH Hw).
Qed.

Lemma join_words_head w ws :
  is_word w = true ->
  exists c t, join [SPACE] (w :: ws) = c :: t /\ isspace c = false.
Proof.
  unfold is_word. intros H. apply andb_prop in H. destruct H as [Hne Hns].
  destruct w as [|c w]; [discriminate|].
  simpl in Hns. apply andb_prop in Hns. destruct Hns as [Hc _].
  apply negb_true_iff in Hc.
  destruct ws; simpl; eauto.
Qed.

Lemma normalized_join ws :
  Forall (fun w => is_word w = true) ws ->
  normalized (join [SPACE] ws) = true.
Proof.
  intros F.
  assert (SS : single_spaced (join [SPACE] ws) = true).
  { induction ws as [|w ws IH]; [reflexivity|].
    inversion F as [|? ? Hw Fws]; subst.
    pose proof Hw as Hw'. unfold is_word in Hw'.
    apply andb_prop in Hw'. destruct Hw' as [_ Hns].
    destruct ws as [|w' ws'].
    - simpl. rewrite <- (app_nil_r w). now rewrite single_spaced_app_word.
    - change (join [SPACE] (w :: w' :: ws')) with (w ++ SPACE :: join [SPACE] (w' :: ws')).
      rewrite (single_spaced_app_word _ _ Hns).
      inversion Fws as [|? ? Hw2 _]; subst.
      destruct (join_words_head w' ws' Hw2) as (c & t & J & Hc).
      specialize (IH Fws). rewrite J in IH |- *.
      cbn [single_spaced]. rewrite isspace_SPACE, Hc. cbn [single_spaced] in IH. rewrite Hc in IH. simpl. simpl in IH.
      exact IH. }
  destruct ws as [|w ws]; [reflexivity|].
  inversion F as [|? ? Hw _]; subst.
  destruct (join_words_head w ws Hw) as (c & t & J & Hc).
  unfold normalized. rewrite J in SS |- *. rewrite Hc, SS. reflexivity.
Qed.

Lemma clean_text_spec v :
  clean_text v = if isna v then [] else normalize_spec (py_str v).
Proof.
  unfold clean_text. destruct (isna v); [reflexivity|]. apply strip_re_sub.
Qed.

(** C5: whitespace normalisation is idempotent: cleaning a cleaned text
    gives it back, for the text of every cell. *)
Theorem clean_text_idempotent v :
  clean_text (VStr (clean_text v)) = clean_text v.
Proof.
  rewrite (clean_text_spec (VStr _)). simpl.
  rewrite (clean_text_spec v). destruct (isna v); [reflexivity|].
  unfold normalize_spec. now rewrite words_join by apply words_are_words.
Qed.

(** C4: [clean_text] returns the empty string for a missing value; for any
    other value it returns the words of its text (the maximal runs of
    non-whitespace characters) separated by single spaces, that is, every
    maximal run of whitespace is collapsed to one space and both ends are
    trimmed: the result keeps the words, has no whitespace at either end, and
    every whitespace character in it is one U+0020 between two
    non-whitespace characters. *)
Theorem clean_text_normalises v :
  clean_text VNaN = []
  /\ clean_text v = (if isna v then [] else normalize_spec (py_str v))
  /\ normalized (clean_text v) = true
  /\ words (clean_text v) = (if isna v then [] else words (py_str v)).
Proof.
  split; [reflexivity|].
  rewrite clean_text_spec. destruct (isna v).
  - repeat split.
  - split; [reflexivity|]. split.
    + apply normalized_join, words_are_words.
    + apply words_join, words_are_words.
Qed.

(** ** The generator *)

Lemma value_eqb_eq a b : value_eqb a b = true <-> a = b.
Proof. unfold value_eqb. destruct (value_eq_dec a b); split; congruence. Qed.

Lemma getitem_combine key cols vs :
  List.length vs = List.length cols ->
  existsb (value_eqb key) cols = true ->
  exists v, getitem (combine cols vs) key = Ok v.
Proof.
  revert vs. induction cols as [|k cols IH]; intros vs L H; [discriminate|].
  destruct vs as [|v vs]; [discriminate|]. simpl.
  destruct (value_eqb k key) eqn:E; [eauto|].
  simpl in H. apply orb_prop in H. destruct H as [H|H].
  - apply value_eqb_eq in H. subst k.
    assert (value_eqb key key = true) by now apply value_eqb_eq. congruence.
  - apply IH; [simpl in L; lia|exact H].
Qed.

Lemma getitem_series df cells key :
  has_column df key = true ->
  exists v, getitem (series_of (columns df) cells) key = Ok v.
Proof.
  intros H. apply getitem_combine; [|exact H].
  now rewrite length_map, length_seq.
Qed.

Lemma rows_ok df :
  has_record_columns df = true -> Forall row_ok (iterrows df).
Proof.
  unfold has_record_columns. simpl. intros H.
  repeat (apply andb_prop in H; destruct H as [? H]).
  apply Forall_forall. intros row Hin.
  unfold iterrows in Hin. apply in_map_iff in Hin.
  destruct Hin as (cells & <- & _).
  repeat split; now apply getitem_series.
Qed.

Lemma toc_row_run idx row tbl st :
  row_ok row ->
  exists cells,
    toc_row idx row tbl st
    = Ok (table_add_row tbl cells, {| bid := bid st + 1; doc := doc st |})
    /\ map cell_marks cells
       = contents_row_outline (bid st + 1) (submission_of row).
Proof.
  intros ((i & Hi) & (t & Ht) & (a & Ha) & _).
  unfold toc_row, bind, lift, next_bid, ret.
  rewrite Hi, Ht, Ha. cbn [bid doc].
  eexists. split; [reflexivity|].
  unfold contents_row_outline, submission_of, cell_of.
  rewrite Hi, Ht, Ha. reflexivity.
Qed.

Lemma toc_loop rows : forall idx tbl st,
  Forall row_ok rows ->
  exists tbl',
    for_enumerate idx rows toc_row tbl st
    = Ok (tbl', {| bid := bid st + Z.of_nat (List.length rows); doc := doc st |})
    /\ map (map cell_marks) (tbl_rows tbl')
       = map (map cell_marks) (tbl_rows tbl)
         ++ map (fun bs => contents_row_outline (fst bs) (snd bs))
              (number (bid st + 1) (map submission_of rows)).
Proof.
  induction rows as [|row rows IH]; intros idx tbl st F.
  - exists tbl. simpl. unfold ret. rewrite Z.add_0_r, app_nil_r.
    destruct st; split; reflexivity.
  - inversion F as [|? ? Hrow Hrows]; subst.
    destruct (toc_row_run idx row tbl st Hrow) as (cells & Hrun & Hcells).
    cbn [for_enumerate]. unfold bind at 1. rewrite Hrun.
    destruct (IH (S idx) (table_add_row tbl cells)
                {| bid := bid st + 1; doc := doc st |} Hrows)
      as (tbl' & Hloop & Hrows').
    exists tbl'. split.
    + rewrite Hloop. cbn [bid doc]. do 3 f_equal.
      cbn [List.length]. lia.
    + rewrite Hrows'. cbn [bid table_add_row tbl_rows map number fst snd].
      rewrite map_app, <- app_assoc. cbn [map app]. rewrite Hcells.
      reflexivity.
Qed.

Lemma outline_append b d :
  outline (append_block b d) = outline d ++ [block_outline b].
Proof. unfold outline, append_block. cbn [body]. now rewrite map_app. Qed.

Lemma abstract_card_run n track idx row st :
  row_ok row ->
  exists d',
    abstract_card n track idx row tt st
    = Ok (tt, {| bid := bid st + 1; doc := d' |})
    /\ outline d'
       = outline (doc st)
         ++ card_outline track (negb (Z.of_nat idx <? Z.of_nat n - 1)%Z)
              (bid st + 1) (submission_of row).
Proof.
  intros ((i & Hi) & (t & Ht) & (a & Ha) & (ab & Hab)).
  unfold abstract_card, bind, lift, next_bid, ret, doc_add_table,
    doc_add_paragraph, modify_doc.
  rewrite Hi, Ht, Ha, Hab. cbn [bid doc].
  unfold card_outline, submission_of, cell_of. rewrite Hi, Ht, Ha, Hab.
  cbn [s_id s_title s_authors s_abstract].
  destruct (Z.of_nat idx <? Z.of_nat n - 1)%Z; cbn [negb];
    (eexists; split; [reflexivity|]);
    cbn [doc bid]; repeat (rewrite outline_append; cbn [doc bid]);
    rewrite <- ?app_assoc; reflexivity.
Qed.

Lemma cards_loop n track rows : forall idx st,
  Forall row_ok rows ->
  (idx + List.length rows = n)%nat ->
  exists d',
    for_enumerate idx rows (abstract_card n track) tt st
    = Ok (tt, {| bid := bid st + Z.of_nat (List.length rows); doc := d' |})
    /\ outline d'
       = outline (doc st)
         ++ cards_outline track (number (bid st + 1) (map submission_of rows)).
Proof.
  induction rows as [|row rows IH]; intros idx st F L.
  - exists (doc st). simpl. unfold ret. rewrite Z.add_0_r, app_nil_r.
    destruct st; split; reflexivity.
  - inversion F as [|? ? Hrow Hrows]; subst.
    destruct (abstract_card_run (idx + List.length (row :: rows)) track idx row st Hrow)
      as (d1 & Hrun & Hd1).
    cbn [for_enumerate]. unfold bind at 1. rewrite Hrun.
    destruct (IH (S idx) {| bid := bid st + 1; doc := d1 |} Hrows)
      as (d' & Hloop & Hd'); [cbn [List.length]; lia|].
    exists d'. split.
    + rewrite Hloop. cbn [bid doc]. do 3 f_equal. cbn [List.length]. lia.
    + rewrite Hd'. cbn [bid doc map number cards_outline].
      rewrite Hd1, <- app_assoc. do 2 f_equal.
      f_equal. f_equal.
      destruct rows as [|r rs]; cbn [List.length map number nonempty_list negb].
      * assert (E : (Z.of_nat idx <? Z.of_nat (idx + 1) - 1)%Z = false)
          by (apply Z.ltb_ge; lia).
        now rewrite E.
      * assert (E : (Z.of_nat idx <? Z.of_nat (idx + S (S (List.length rs))) - 1)%Z = true)
          by (apply Z.ltb_lt; lia).
        now rewrite E.
Qed.

Lemma bind_ok {A B} (c : M A) (k : A -> M B) st a st' :
  c st = Ok (a, st') -> bind c k st = k a st'.
Proof. intros H. unfold bind. now rewrite H. Qed.

Lemma prefix_run track :
  exists d0,
    (modify_doc page_setup ;; title_page track ;; toc_heading)
      {| bid := 0; doc := new_Document |}
    = Ok (tt, {| bid := 1; doc := d0 |})
    /\ outline d0
       = title_page_outline track
         ++ [ OPara [MStart 1 (lit "TOC"); MText (lit "Table of Contents");
                     MEnd 1];
              OPara [] ].
Proof.
  exists (match (modify_doc page_setup ;; title_page track ;; toc_heading)
                  {| bid := 0; doc := new_Document |} with
          | Ok (_, st) => doc st
          | Raise _ => new_Document
          end).
  split; vm_compute; reflexivity.
Qed.

Lemma bind_assoc {A B C} (c : M A) (k : A -> M B) (k' : B -> M C) st :
  bind (bind c k) k' st = bind c (fun a => bind (k a) k') st.
Proof. unfold bind. destruct (c st) as [[a st']|e]; reflexivity. Qed.

Lemma toc_table_outline :
  map (map cell_marks) (tbl_rows toc_table) = [contents_header_outline].
Proof. reflexivity. Qed.

Theorem build_outline df track :
  has_record_columns df = true ->
  exists d,
    create_book_of_abstracts df track = Ok d
    /\ outline d = book_outline track (submissions df).
Proof.
  intros H. pose proof (rows_ok df H) as F.
  destruct (prefix_run track) as (d0 & Hpre & Hd0).
  destruct (toc_loop (iterrows df) 0 toc_table {| bid := 1; doc := d0 |} F)
    as (tbl & Htoc & Htbl).
  cbn [bid doc] in Htoc, Htbl.
  set (n := List.length (iterrows df)) in *.
  destruct (cards_loop (len df) track (iterrows df) 0
              {| bid := 1 + Z.of_nat n;
                 doc := append_block
                          (BParagraph (add_run empty_paragraph
                                         (plain_run [PageBreak])))
                          (append_block (BTable tbl) d0) |} F)
    as (d & Hcards & Hd).
  { unfold len, iterrows. now rewrite length_map. }
  cbn [bid doc] in Hcards, Hd.
  exists d. split.
  - unfold create_book_of_abstracts, build.
    transitivity
      (match
         bind (modify_doc page_setup ;; title_page track ;; toc_heading)
           (fun _ =>
              tbl <- for_enumerate 0 (iterrows df) toc_row toc_table ;;
              doc_add_table tbl ;;
              doc_add_page_break ;;
              for_enumerate 0 (iterrows df)
                (abstract_card (len df) track) tt)
           {| bid := 0; doc := new_Document |}
       with
       | Ok (_, st) => Ok (doc st)
       | Raise e => Raise e
       end).
    { reflexivity. }
    rewrite (bind_ok _ _ _ _ _ Hpre).
    rewrite (bind_ok _ _ _ _ _ Htoc).
    unfold doc_add_table, doc_add_page_break, doc_add_paragraph, modify_doc.
    unfold bind at 1 2. cbn [bid doc].
    fold n. rewrite Hcards. reflexivity.
  - rewrite Hd. rewrite !outline_append, Hd0. cbn [block_outline].
    rewrite Htbl, toc_table_outline. unfold book_outline, submissions.
    rewrite length_map. fold n.
    rewrite <- !app_assoc. cbn [app].
    replace (1 + Z.of_nat n + 1)%Z with (Z.of_nat n + 2)%Z by lia.
    reflexivity.
Qed.

(** ** Reading the outline of the book *)

Lemma bookmarks_app a b : bookmarks (a ++ b) = bookmarks a ++ bookmarks b.
Proof. apply flat_map_app. Qed.

Lemma links_app a b : links (a ++ b) = links a ++ links b.
Proof. apply flat_map_app. Qed.

Lemma map_number {A B} (f : Z * A -> B) (g : A -> B) (l : list A) :
  (forall b s, f (b, s) = g s) ->
  forall k, map f (number k l) = map g l.
Proof.
  intros H. induction l as [|x l IH]; intros k; [reflexivity|].
  cbn [number map]. now rewrite H, IH.
Qed.

Lemma number_length {A} (l : list A) k :
  List.length (number k l) = List.length l.
Proof.
  revert k. induction l as [|x l IH]; intros k; [reflexivity|].
  cbn [number List.length]. now rewrite IH.
Qed.

Lemma fst_number {A} (l : list A) : forall k,
  map fst (number (Z.of_nat k) l) = map Z.of_nat (seq k (List.length l)).
Proof.
  induction l as [|x l IH]; intros k; [reflexivity|].
  cbn [number map List.length seq fst]. f_equal.
  rewrite <- (IH (S k)). now rewrite Nat2Z.inj_succ.
Qed.

Lemma snd_number {A} (l : list A) : forall k, map snd (number k l) = l.
Proof.
  induction l as [|x l IH]; intros k; [reflexivity|].
  cbn [number map snd]. now rewrite IH.
Qed.

Lemma nth_error_number {A} (l : list A) : forall k i x,
  nth_error l i = Some x ->
  nth_error (number k l) i = Some ((k + Z.of_nat i)%Z, x).
Proof.
  induction l as [|y l IH]; intros k i x H; destruct i as [|i]; try discriminate.
  - cbn in H |- *. inversion H. now rewrite Z.add_0_r.
  - cbn [number nth_error] in H |- *. rewrite (IH (k + 1)%Z i x H).
    do 2 f_equal. lia.
Qed.

Lemma leading_cards_nil track nss :
  leading_paragraphs (cards_outline track nss) = [].
Proof. destruct nss as [|[b s] rest]; reflexivity. Qed.

Lemma table_sections_cards {B} track
    (f : list RowMarks * list (list Mark) -> B) (g : Z * Submission -> B) :
  (forall last b s,
     map f (table_sections (card_outline track last b s)) = [g (b, s)]) ->
  forall nss,
    map f (table_sections (cards_outline track nss)) = map g nss.
Proof.
  intros H. induction nss as [|[b s] rest IH]; [reflexivity|].
  cbn [cards_outline map].
  change (g (b, s) :: map g rest) with ([g (b, s)] ++ map g rest).
  rewrite <- IH, <- (H (negb (nonempty_list rest)) b s), <- map_app.
  f_equal. unfold card_outline.
  destruct (negb (nonempty_list rest));
    cbn [app table_sections leading_paragraphs map];
    rewrite leading_cards_nil; reflexivity.
Qed.

Lemma cards_sections_length track nss :
  List.length (table_sections (cards_outline track nss)) = List.length nss.
Proof.
  rewrite <- (length_map (fun _ => tt)).
  rewrite (table_sections_cards track (fun _ => tt) (fun _ => tt)).
  - apply length_map.
  - intros [] b s; reflexivity.
Qed.

Lemma book_sections track ss :
  table_sections (book_outline track ss)
  = (contents_header_outline
       :: map (fun bs => contents_row_outline (fst bs) (snd bs)) (number 2 ss),
     [[MBreak]])
    :: table_sections
         (cards_outline track (number (Z.of_nat (List.length ss) + 2) ss)).
Proof.
  unfold book_outline, title_page_outline.
  cbn [app table_sections leading_paragraphs].
  now rewrite leading_cards_nil.
Qed.

Lemma contents_rows_outline d track ss :
  outline d = book_outline track ss ->
  contents_rows d
  = map (fun bs => contents_row_outline (fst bs) (snd bs)) (number 2 ss).
Proof. intros H. unfold contents_rows. now rewrite H, book_sections. Qed.

Lemma cards_outline_of d track ss :
  outline d = book_outline track ss ->
  cards d
  = table_sections
      (cards_outline track (number (Z.of_nat (List.length ss) + 2) ss)).
Proof. intros H. unfold cards. now rewrite H, book_sections. Qed.

Lemma contents_rows_links d track ss :
  outline d = book_outline track ss ->
  map row_links (contents_rows d) = map record_row_links ss.
Proof.
  intros H. rewrite (contents_rows_outline d track ss H), map_map.
  apply map_number. reflexivity.
Qed.

Lemma contents_rows_bookmarks d track ss :
  outline d = book_outline track ss ->
  map row_bookmarks (contents_rows d)
  = map (fun bs => [(fst bs, TOC_SUB (s_id (snd bs)))]) (number 2 ss).
Proof.
  intros H. rewrite (contents_rows_outline d track ss H), map_map.
  apply map_ext. reflexivity.
Qed.


Lemma cards_bookmarks d track ss :
  outline d = book_outline track ss ->
  map card_bookmarks (cards d)
  = map (fun bs => [(fst bs, SUB (s_id (snd bs)))])
      (number (Z.of_nat (List.length ss) + 2) ss).
Proof.
  intros H. rewrite (cards_outline_of d track ss H).
  apply table_sections_cards. intros [] b s; reflexivity.
Qed.

Lemma cards_links d track ss :
  outline d = book_outline track ss ->
  map card_links (cards d)
  = map (fun s => [(TOC_SUB (s_id s), back_text)]) ss.
Proof.
  intros H. rewrite (cards_outline_of d track ss H).
  rewrite (table_sections_cards track card_links
             (fun bs => [(TOC_SUB (s_id (snd bs)), back_text)])).
  - apply map_number. reflexivity.
  - intros [] b s; reflexivity.
Qed.

Lemma contents_marks_bookmarks nss :
  bookmarks
    (List.concat
       (List.concat
          (map (fun bs => contents_row_outline (fst bs) (snd bs)) nss)))
  = map (fun bs => (fst bs, TOC_SUB (s_id (snd bs)))) nss.
Proof.
  induction nss as [|[b s] rest IH]; [reflexivity|].
  cbn [map List.concat]. rewrite concat_app, bookmarks_app, IH. reflexivity.
Qed.

Lemma cards_marks_bookmarks track nss :
  bookmarks (flat_map outline_marks (cards_outline track nss))
  = map (fun bs => (fst bs, SUB (s_id (snd bs)))) nss.
Proof.
  induction nss as [|[b s] rest IH]; [reflexivity|].
  cbn [cards_outline map]. rewrite flat_map_app, bookmarks_app, IH.
  destruct (negb (nonempty_list rest)); reflexivity.
Qed.

Lemma book_bookmarks d track ss :
  outline d = book_outline track ss ->
  doc_bookmarks d
  = (1%Z, lit "TOC")
    :: map (fun bs => (fst bs, TOC_SUB (s_id (snd bs)))) (number 2 ss)
    ++ map (fun bs => (fst bs, SUB (s_id (snd bs))))
         (number (Z.of_nat (List.length ss) + 2) ss).
Proof.
  intros H. unfold doc_bookmarks. rewrite H. unfold book_outline.
  rewrite !flat_map_app, !bookmarks_app, cards_marks_bookmarks.
  cbn [flat_map outline_marks app].
  match goal with
  | |- context [bookmarks (?a :: ?b :: ?c :: ?X ++ ?Y)] =>
      change (a :: b :: c :: X ++ Y) with ([a; b; c] ++ X ++ Y)
  end.
  change (List.concat (List.concat (contents_header_outline :: ?x)))
    with (List.concat contents_header_outline ++ List.concat (List.concat x)).
  rewrite !bookmarks_app, contents_marks_bookmarks.
  change (bookmarks [MBreak]) with (@nil (Z * str)).
  rewrite app_nil_r. reflexivity.
Qed.

Lemma submissions_length df : List.length (submissions df) = len df.
Proof. unfold submissions, iterrows, len. now rewrite !length_map. Qed.


Lemma book_bookmark_names d track ss :
  outline d = book_outline track ss ->
  map snd (doc_bookmarks d)
  = lit "TOC" :: map (fun s => TOC_SUB (s_id s)) ss
    ++ map (fun s => SUB (s_id s)) ss.
Proof.
  intros H. rewrite (book_bookmarks d track ss H).
  cbn [map snd]. rewrite map_app, !map_map. f_equal. f_equal.
  - apply map_number. reflexivity.
  - apply map_number. reflexivity.
Qed.

Lemma book_bookmark_ids d track ss :
  outline d = book_outline track ss ->
  map fst (doc_bookmarks d)
  = map Z.of_nat (seq 1 (2 * List.length ss + 1)).
Proof.
  intros H. rewrite (book_bookmarks d track ss H).
  set (n := List.length ss).
  assert (E1 : map (fun bs : Z * Submission => fst bs) (number 2 ss)
               = map Z.of_nat (seq 2 n)) by exact (fst_number ss 2).
  assert (E2 : map (fun bs : Z * Submission => fst bs)
                 (number (Z.of_nat n + 2) ss)
               = map Z.of_nat (seq (2 + n) n)).
  { replace (Z.of_nat n + 2)%Z with (Z.of_nat (2 + n)) by lia.
    exact (fst_number ss (2 + n)). }
  cbn [map fst]. rewrite map_app, !map_map. cbn [fst]. rewrite E1, E2.
  replace (2 * n + 1) with (1 + (n + n)) by lia.
  rewrite seq_app, seq_app, !map_app. reflexivity.
Qed.

(** ** Claims about the generator *)



(** C10: the bookmarks of the document built for [n] records carry, in
    document order, the ids 1, 2, ..., 2n+1 (the [TOC] heading, then one per
    contents row, then one per abstract card); no id is used twice. *)
Theorem bookmark_ids_count_up df track :
  has_record_columns df = true ->
  exists d,
    create_book_of_abstracts df track = Ok d
    /\ map fst (doc_bookmarks d) = map Z.of_nat (seq 1 (2 * len df + 1))
    /\ NoDup (map fst (doc_bookmarks d))
    /\ map snd (doc_bookmarks d)
       = lit "TOC" :: map (fun s => TOC_SUB (s_id s)) (submissions df)
         ++ map (fun s => SUB (s_id s)) (submissions df).
Proof.
  intros H. destruct (build_outline df track H) as (d & Hd & Ho).
  exists d. split; [exact Hd|].
  pose proof (book_bookmark_ids d track _ Ho) as Hi.
  rewrite submissions_length in Hi.
  split; [exact Hi|]. split.
  - rewrite Hi. apply Injective_map_NoDup.
    + intros a b. apply Nat2Z.inj.
    + apply seq_NoDup.
  - exact (book_bookmark_names d track _ Ho).
Qed.

Lemma bookmark_ids_count_up_witness :
  has_record_columns (oral_rows sample_df) = true
  /\ exists d,
       create_book_of_abstracts (oral_rows sample_df) (lit "FAE") = Ok d
       /\ map fst (doc_bookmarks d)
          = map Z.of_nat (seq 1 (2 * len (oral_rows sample_df) + 1))
       /\ NoDup (map fst (doc_bookmarks d))
       /\ map snd (doc_bookmarks d)
          = lit "TOC"
            :: map (fun s => TOC_SUB (s_id s)) (submissions (oral_rows sample_df))
            ++ map (fun s => SUB (s_id s)) (submissions (oral_rows sample_df)).
Proof.
  split; [reflexivity|].
  apply (bookmark_ids_count_up (oral_rows sample_df) (lit "FAE")).
  reflexivity.
Defined.

Lemma nth_error_map_some {A B} (f : A -> B) l i x :
  nth_error l i = Some x -> nth_error (map f l) i = Some (f x).
Proof. intros H. rewrite nth_error_map, H. reflexivity. Qed.

(** When the identifiers of the records are written differently, no two
    bookmarks of the book share a name: every anchor names one bookmark. *)
Lemma book_names_NoDup d track ss :
  outline d = book_outline track ss ->
  NoDup (map (fun s => py_str (s_id s)) ss) ->
  NoDup (map snd (doc_bookmarks d)).
Proof.
  intros Ho ND. rewrite (book_bookmark_names d track _ Ho).
  assert (NT : NoDup (map (fun s => TOC_SUB (s_id s)) ss)).
  { rewrite <- (map_map (fun s => py_str (s_id s)) (app (lit "TOC_SUB_"))).
    apply Injective_map_NoDup; [|exact ND].
    intros a b. apply app_inv_head. }
  assert (NS : NoDup (map (fun s => SUB (s_id s)) ss)).
  { rewrite <- (map_map (fun s => py_str (s_id s)) (app (lit "SUB_"))).
    apply Injective_map_NoDup; [|exact ND].
    intros a b. apply app_inv_head. }
  constructor.
  - intros Hin. apply in_app_or in Hin. destruct Hin as [Hin|Hin];
      apply in_map_iff in Hin; destruct Hin as (s & E & _);
      vm_compute in E; discriminate.
  - apply NoDup_app; [exact NT | exact NS |].
    intros x Hx Hx'. apply in_map_iff in Hx, Hx'.
    destruct Hx as (s & E & _), Hx' as (s' & E' & _).
    rewrite <- E' in E. vm_compute in E. discriminate.
Qed.

Lemma bookmark_names_distinct df track :
  has_record_columns df = true ->
  NoDup (map (fun s => py_str (s_id s)) (submissions df)) ->
  exists d,
    create_book_of_abstracts df track = Ok d
    /\ NoDup (map snd (doc_bookmarks d)).
Proof.
  intros H ND. destruct (build_outline df track H) as (d & Hd & Ho).
  exists d. split; [exact Hd|]. exact (book_names_NoDup d track _ Ho ND).
Qed.

(** C2: for the record at any position of the filtered set, the contents
    row and the card at that position are linked both ways: the card carries
    one bookmark, named [SUB_<id>]; the identifier, title and authors cells of
    the contents row each hold a hyperlink whose anchor is that name; the
    contents row carries one bookmark, named [TOC_SUB_<id>]; the only
    hyperlink of the card, "Back to Contents", has that name as its anchor,
    and that name is not [TOC], the bookmark at the top of the contents.
    Both names are names of bookmarks of the document, and of exactly one
    each when the identifiers of the records are written differently. *)
Theorem contents_row_and_card_linked df track i s :
  has_record_columns df = true ->
  nth_error (submissions df) i = Some s ->
  exists d row card,
    create_book_of_abstracts df track = Ok d
    /\ nth_error (contents_rows d) i = Some row
    /\ nth_error (cards d) i = Some card
    /\ map snd (card_bookmarks card) = [SUB (s_id s)]
    /\ row_links row
       = [ [(SUB (s_id s), py_str (s_id s))];
           [(SUB (s_id s), clean_text (s_title s))];
           [(SUB (s_id s), clean_text (s_authors s))] ]
    /\ map snd (row_bookmarks row) = [TOC_SUB (s_id s)]
    /\ card_links card = [(TOC_SUB (s_id s), back_text)]
    /\ TOC_SUB (s_id s) <> lit "TOC"
    /\ 1 <= bookmark_count d (SUB (s_id s))
    /\ 1 <= bookmark_count d (TOC_SUB (s_id s))
    /\ (NoDup (map (fun r => py_str (s_id r)) (submissions df)) ->
        bookmark_count d (SUB (s_id s)) = 1
        /\ bookmark_count d (TOC_SUB (s_id s)) = 1).
Proof.
  intros H Hs. destruct (build_outline df track H) as (d & Hd & Ho).
  pose proof (contents_rows_links d track _ Ho) as Hrl.
  pose proof (contents_rows_bookmarks d track _ Ho) as Hrb.
  pose proof (cards_bookmarks d track _ Ho) as Hcb.
  pose proof (cards_links d track _ Ho) as Hcl.
  pose proof (nth_error_map_some record_row_links _ _ _ Hs) as E1.
  rewrite <- Hrl, nth_error_map in E1.
  destruct (nth_error (contents_rows d) i) as [row|] eqn:Hrow; [|discriminate].
  pose proof (nth_error_map_some
                (fun s => [(TOC_SUB (s_id s), back_text)]) _ _ _ Hs) as E2.
  rewrite <- Hcl, nth_error_map in E2.
  destruct (nth_error (cards d) i) as [card|] eqn:Hcard; [|discriminate].
  exists d, row, card.
  cbn [option_map] in E1, E2. injection E1 as E1'. injection E2 as E2'.
  assert (E3 : map snd (row_bookmarks row) = [TOC_SUB (s_id s)]).
  { pose proof (nth_error_number _ 2 _ _ Hs) as Hn.
    pose proof (nth_error_map_some
                  (fun bs : Z * Submission =>
                     [(fst bs, TOC_SUB (s_id (snd bs)))]) _ _ _ Hn) as E.
    rewrite <- Hrb, nth_error_map, Hrow in E. cbn [option_map] in E.
    injection E as E'. rewrite E'. reflexivity. }
  assert (E4 : map snd (card_bookmarks card) = [SUB (s_id s)]).
  { pose proof (nth_error_number _ (Z.of_nat (List.length (submissions df)) + 2)
                  _ _ Hs) as Hn.
    pose proof (nth_error_map_some
                  (fun bs : Z * Submission =>
                     [(fst bs, SUB (s_id (snd bs)))]) _ _ _ Hn) as E.
    rewrite <- Hcb, nth_error_map, Hcard in E. cbn [option_map] in E.
    injection E as E'. rewrite E'. reflexivity. }
  pose proof (book_bookmark_names d track _ Ho) as Hnames.
  pose proof (nth_error_In _ _ Hs) as Hin.
  assert (InS : In (SUB (s_id s)) (map snd (doc_bookmarks d))).
  { rewrite Hnames. right. apply in_or_app. right.
    apply (in_map (fun s => SUB (s_id s))). exact Hin. }
  assert (InT : In (TOC_SUB (s_id s)) (map snd (doc_bookmarks d))).
  { rewrite Hnames. right. apply in_or_app. left.
    apply (in_map (fun s => TOC_SUB (s_id s))). exact Hin. }
  split; [exact Hd|]. split; [exact Hrow|]. split; [exact Hcard|].
  split; [exact E4|]. split; [exact E1'|]. split; [exact E3|].
  split; [exact E2'|]. split; [vm_compute; discriminate|].
  split; [apply count_occ_In; exact InS|].
  split; [apply count_occ_In; exact InT|].
  intros ND. pose proof (book_names_NoDup d track _ Ho ND) as NDn.
  pose proof (proj1 (NoDup_count_occ' (list_eq_dec N.eq_dec) _) NDn) as C.
  split; apply C; assumption.
Qed.

Lemma contents_row_and_card_linked_witness :
  has_record_columns (oral_rows sample_df) = true
  /\ nth_error (submissions (oral_rows sample_df)) 1
     = Some {| s_id := VInt 21; s_title := VStr (lit "Pricing");
               s_authors := VNaN; s_abstract := VStr (lit "Options.") |}
  /\ exists d row card,
       create_book_of_abstracts (oral_rows sample_df) (lit "FAE") = Ok d
       /\ nth_error (contents_rows d) 1 = Some row
       /\ nth_error (cards d) 1 = Some card
       /\ map snd (card_bookmarks card) = [SUB (VInt 21)]
       /\ row_links row
          = [ [(SUB (VInt 21), py_str (VInt 21))];
              [(SUB (VInt 21), clean_text (VStr (lit "Pricing")))];
              [(SUB (VInt 21), clean_text VNaN)] ]
       /\ map snd (row_bookmarks row) = [TOC_SUB (VInt 21)]
       /\ card_links card = [(TOC_SUB (VInt 21), back_text)]
       /\ TOC_SUB (VInt 21) <> lit "TOC"
       /\ 1 <= bookmark_count d (SUB (VInt 21))
       /\ 1 <= bookmark_count d (TOC_SUB (VInt 21))
       /\ (NoDup (map (fun r => py_str (s_id r))
                    (submissions (oral_rows sample_df))) ->
           bookmark_count d (SUB (VInt 21)) = 1
           /\ bookmark_count d (TOC_SUB (VInt 21)) = 1).
Proof.
  split; [reflexivity|]. split; [reflexivity|].
  apply (contents_row_and_card_linked (oral_rows sample_df) (lit "FAE") 1
           {| s_id := VInt 21; s_title := VStr (lit "Pricing");
              s_authors := VNaN; s_abstract := VStr (lit "Options.") |});
    reflexivity.
Defined.




(** ** The entry point *)

Lemma missing_columns_nil df :
  missing_columns df = [] <-> has_required_columns df = true.
Proof.
  unfold missing_columns, has_required_columns.
  induction required_cols as [|c cs IH]; cbn [filter forallb]; [tauto|].
  destruct (has_column df c); cbn [negb andb].
  - exact IH.
  - split; discriminate.
Qed.

Lemma missing_columns_spec df col :
  In col (missing_columns df)
  <-> In col required_cols /\ has_column df col = false.
Proof.
  unfold missing_columns. rewrite filter_In, negb_true_iff. reflexivity.
Qed.

Lemma mask_filter {A} (g : A -> bool) (l : list A) :
  map fst (filter snd (combine l (map g l))) = filter g l.
Proof.
  induction l as [|x l IH]; [reflexivity|].
  cbn [map combine filter snd]. destruct (g x); cbn [map fst]; now rewrite IH.
Qed.

Lemma df_filter df :
  has_column df col_Decision = true ->
  exists decision,
    df_column df col_Decision = Ok decision
    /\ df_mask df (column_eq decision Oral_Presentation) = oral_rows df.
Proof.
  intros H. unfold df_column. rewrite H. eexists. split; [reflexivity|].
  unfold df_mask, oral_rows, column_eq, iterrows. f_equal.
  rewrite !map_map. apply mask_filter.
Qed.

Lemma required_has_decision df :
  has_required_columns df = true -> has_column df col_Decision = true.
Proof.
  unfold has_required_columns, required_cols. cbn [forallb].
  rewrite !andb_true_iff. tauto.
Qed.


Lemma oral_rows_spec df cells :
  In cells (data (oral_rows df))
  <-> In cells (data df) /\ decision_of df cells = Oral_Presentation.
Proof.
  unfold oral_rows. cbn [data]. rewrite filter_In. unfold is_oral.
  rewrite value_eqb_eq. reflexivity.
Qed.

Lemma oral_rows_idem df : oral_rows (oral_rows df) = oral_rows df.
Proof.
  unfold oral_rows at 1. cbn [columns data oral_rows].
  unfold oral_rows. f_equal.
  assert (E : forall l, filter (is_oral df) (filter (is_oral df) l)
                        = filter (is_oral df) l).
  { induction l as [|x l IH]; [reflexivity|]. cbn [filter].
    destruct (is_oral df x) eqn:Ex; [|exact IH].
    cbn [filter]. now rewrite Ex, IH. }
  exact (E (data df)).
Qed.

Ltac open_main argv :=
  unfold main, input_file_of, output_file_of, track_title_of in *;
  destruct (parse_argv argv) as [[input_file output_file] track_title];
  cbn [fst snd] in *.

(** The run of [main] on a table with every required column, in terms of
    the rows kept by the filter. *)
Lemma main_checked argv w df :
  read_excel w (input_file_of argv) = ReadOk df ->
  has_required_columns df = true ->
  main argv w
  = let out := preamble (input_file_of argv) (output_file_of argv)
                 (track_title_of argv)
               ++ [ Line (lit "Found " ++ str_of_nat (len (oral_rows df))
                          ++ lit " Oral Presentations") ] in
    if (len (oral_rows df) =? 0)%nat
    then {| stdout := out ++
              [ Line (lit "ERROR: No oral presentations found in the data.") ];
            status := Exit 1; written := None |}
    else
      let out := out ++
        [ Line ([NEWLINE] ++ lit "Generating Book of Abstracts...") ] in
      match create_book_of_abstracts (oral_rows df) (track_title_of argv) with
      | Raise e => {| stdout := out; status := Uncaught e; written := None |}
      | Ok d =>
          let out := out ++
            [ Line (lit "Saving to " ++ output_file_of argv ++ lit "...") ] in
          match save w d (output_file_of argv) with
          | PermissionError =>
              {| stdout := out ++
                   [ Line (lit "ERROR: Cannot save file. Please close "
                           ++ output_file_of argv ++ lit " if it's open.") ];
                 status := Exit 1; written := None |}
          | SaveException e =>
              {| stdout := out; status := Uncaught (OtherError e);
                 written := None |}
          | Saved =>
              {| stdout := out ++
                   [ Line ([NEWLINE] ++ rule);
                     Line ([9989%N] ++ lit " SUCCESS!");
                     Line rule;
                     Line ([NEWLINE] ++ lit "Generated: "
                           ++ output_file_of argv);
                     Line (lit "Total abstracts: "
                           ++ str_of_nat (len (oral_rows df)));
                     Line ([NEWLINE] ++ lit "Document includes:");
                     Line (lit "  " ++ [8226%N]
                           ++ lit " Title page with IMRC 2025 branding");
                     Line (lit "  " ++ [8226%N]
                           ++ lit " Table of Contents with hyperlinks");
                     Line (lit "  " ++ [8226%N]
                           ++ lit " All abstracts with navigation links") ];
                 status := Exit 0;
                 written := Some (output_file_of argv, d) |}
          end
      end.
Proof.
  intros Hread Hreq.
  destruct (df_filter df (required_has_decision df Hreq)) as (dec & Hcol & Hmask).
  pose proof (proj2 (missing_columns_nil df) Hreq) as Hmiss.
  unfold missing_columns in Hmiss.
  open_main argv. rewrite Hread, Hmiss. cbn [nonempty_list].
  rewrite Hcol, Hmask. unfold preamble. reflexivity.
Qed.

Lemma main_unchecked argv w df :
  read_excel w (input_file_of argv) = ReadOk df ->
  has_required_columns df = false ->
  main argv w
  = {| stdout :=
         preamble (input_file_of argv) (output_file_of argv)
           (track_title_of argv)
         ++ [ LineRepr (lit "ERROR: Missing required columns: ")
                (missing_columns df);
              LineRepr (lit "Available columns: ") (columns df) ];
       status := Exit 1;
       written := None |}.
Proof.
  intros Hread Hreq.
  assert (Hmiss : nonempty_list (missing_columns df) = true).
  { destruct (missing_columns df) eqn:E; [|reflexivity].
    apply missing_columns_nil in E. congruence. }
  unfold missing_columns in *.
  open_main argv. rewrite Hread, Hmiss. reflexivity.
Qed.




(** X19: rows whose status is not the target literal are inert: a run on
    the table and a run on the table without them print the same lines, end
    with the same status and write the same file. *)
Lemma non_oral_rows_are_inert argv w w' df :
  read_excel w (input_file_of argv) = ReadOk df ->
  read_excel w' (input_file_of argv) = ReadOk (oral_rows df) ->
  (forall d path, save w' d path = save w d path) ->
  main argv w' = main argv w.
Proof.
  intros Hr Hr' Hs.
  destruct (has_required_columns df) eqn:Hreq.
  - rewrite (main_checked argv w df Hr Hreq).
    rewrite (main_checked argv w' (oral_rows df) Hr' Hreq).
    rewrite oral_rows_idem. cbv zeta.
    destruct (len (oral_rows df) =? 0)%nat; [reflexivity|].
    destruct (create_book_of_abstracts (oral_rows df) (track_title_of argv));
      [|reflexivity].
    now rewrite Hs.
  - rewrite (main_unchecked argv w df Hr Hreq).
    now rewrite (main_unchecked argv w' (oral_rows df) Hr' Hreq).
Qed.

(** C6: when the table lacks a required column, [main] prints, after the
    preamble, one error line listing exactly the required columns the table
    lacks (and the columns it has), exits with status 1 and writes no file;
    it does not reach the generator. *)
Theorem missing_columns_are_reported argv w df :
  read_excel w (input_file_of argv) = ReadOk df ->
  has_required_columns df = false ->
  main argv w
  = {| stdout :=
         preamble (input_file_of argv) (output_file_of argv)
           (track_title_of argv)
         ++ [ LineRepr (lit "ERROR: Missing required columns: ")
                (missing_columns df);
              LineRepr (lit "Available columns: ") (columns df) ];
       status := Exit 1;
       written := None |}
  /\ exit_code (status (main argv w)) <> 0%Z
  /\ missing_columns df <> []
  /\ (forall col,
        In col (missing_columns df)
        <-> In col required_cols /\ has_column df col = false).
Proof.
  intros Hread Hreq.
  pose proof (main_unchecked argv w df Hread Hreq) as Hm.
  split; [exact Hm|]. split; [rewrite Hm; discriminate|]. split.
  - intros E. apply missing_columns_nil in E. congruence.
  - intros col. apply missing_columns_spec.
Qed.

Lemma missing_columns_are_reported_witness :
  read_excel (sample_world incomplete_df) (input_file_of [])
  = ReadOk incomplete_df
  /\ has_required_columns incomplete_df = false
  /\ main [] (sample_world incomplete_df)
     = {| stdout :=
            preamble (input_file_of []) (output_file_of []) (track_title_of [])
            ++ [ LineRepr (lit "ERROR: Missing required columns: ")
                   (missing_columns incomplete_df);
                 LineRepr (lit "Available columns: ") (columns incomplete_df) ];
          status := Exit 1;
          written := None |}
  /\ exit_code (status (main [] (sample_world incomplete_df))) <> 0%Z
  /\ missing_columns incomplete_df <> []
  /\ (forall col,
        In col (missing_columns incomplete_df)
        <-> In col required_cols /\ has_column incomplete_df col = false).
Proof.
  split; [reflexivity|]. split; [reflexivity|].
  apply (missing_columns_are_reported [] (sample_world incomplete_df)
           incomplete_df); reflexivity.
Defined.

(** C7: when no row of the table has the status [Oral Presentation], [main]
    prints an error line, exits with status 1 and writes no file; when the
    required columns are all there, the error is the one about the empty
    selection and the generator is not reached. *)
Theorem no_oral_rows_is_an_error argv w df :
  read_excel w (input_file_of argv) = ReadOk df ->
  (forall cells,
     In cells (data df) -> decision_of df cells <> Oral_Presentation) ->
  exit_code (status (main argv w)) = 1%Z
  /\ written (main argv w) = None
  /\ (exists l, In l (stdout (main argv w)) /\ is_error_line l = true)
  /\ (has_required_columns df = true ->
      main argv w
      = {| stdout :=
             preamble (input_file_of argv) (output_file_of argv)
               (track_title_of argv)
             ++ [ Line (lit "Found 0 Oral Presentations");
                  Line (lit "ERROR: No oral presentations found in the data.") ];
           status := Exit 1;
           written := None |}).
Proof.
  intros Hread Hnone.
  assert (Hempty : data (oral_rows df) = []).
  { destruct (data (oral_rows df)) as [|cells rest] eqn:E; [reflexivity|].
    assert (Hin : In cells (data (oral_rows df))) by (rewrite E; now left).
    apply oral_rows_spec in Hin. destruct Hin as [Hin Hdec].
    now destruct (Hnone cells Hin). }
  destruct (has_required_columns df) eqn:Hreq.
  - pose proof (main_checked argv w df Hread Hreq) as Hm. cbv zeta in Hm.
    assert (Hlen : len (oral_rows df) = 0%nat) by (unfold len; now rewrite Hempty).
    rewrite Hlen in Hm. cbn [Nat.eqb] in Hm.
    rewrite <- app_assoc in Hm. rewrite Hm. cbn [status written stdout exit_code].
    repeat split.
    + eexists. split; [apply in_or_app; right; right; left; reflexivity|].
      reflexivity.
  - pose proof (main_unchecked argv w df Hread Hreq) as Hm.
    rewrite Hm. cbn [status written stdout exit_code].
    repeat split.
    + eexists. split; [apply in_or_app; right; left; reflexivity|].
      reflexivity.
    + discriminate.
Qed.

Lemma no_oral_rows_is_an_error_witness :
  read_excel (sample_world poster_df) (input_file_of []) = ReadOk poster_df
  /\ (forall cells,
        In cells (data poster_df) ->
        decision_of poster_df cells <> Oral_Presentation)
  /\ exit_code (status (main [] (sample_world poster_df))) = 1%Z
  /\ written (main [] (sample_world poster_df)) = None
  /\ (exists l,
        In l (stdout (main [] (sample_world poster_df)))
        /\ is_error_line l = true)
  /\ (has_required_columns poster_df = true ->
      main [] (sample_world poster_df)
      = {| stdout :=
             preamble (input_file_of []) (output_file_of []) (track_title_of [])
             ++ [ Line (lit "Found 0 Oral Presentations");
                  Line (lit "ERROR: No oral presentations found in the data.") ];
           status := Exit 1;
           written := None |}).
Proof.
  assert (H : forall cells,
             In cells (data poster_df) ->
             decision_of poster_df cells <> Oral_Presentation).
  { intros cells [<-|[<-|[]]]; vm_compute; discriminate. }
  split; [reflexivity|]. split; [exact H|].
  apply (no_oral_rows_is_an_error [] (sample_world poster_df) poster_df);
    [reflexivity | exact H].
Defined.

(** C9: [main] takes three positional arguments, in the order input file,
    output file, track title; the argument at position i, when present,
    replaces the i-th default and nothing else, and any further argument is
    ignored. *)
Theorem argv_overrides_defaults argv :
  parse_argv argv
  = (nth 1 argv (lit "IMRC2025_submissions.xlsx"),
     nth 2 argv (lit "IMRC2025_Book_of_Abstracts.docx"),
     nth 3 argv (lit "FAE"))
  /\ parse_argv (firstn 4 argv) = parse_argv argv.
Proof.
  split; destruct argv as [|a0 [|a1 [|a2 [|a3 rest]]]]; reflexivity.
Qed.

(* ================================================================== *)
(** * Further properties *)

(** ** More on whitespace normalisation *)

Lemma words_nil_iff s : words s = [] <-> forallb isspace s = true.
Proof.
  induction s as [|c t IH]; [split; reflexivity|].
  cbn [forallb]. destruct (isspace c) eqn:E.
  - rewrite (words_space _ _ E). exact IH.
  - split; [|discriminate]. intros H.
    now destruct (words_head_nonspace _ t E).
Qed.

(** X1: [clean_text] returns the empty string exactly for a missing value
    and for a text made of whitespace only (the empty text included). *)
Theorem clean_text_empty_iff v :
  clean_text v = [] <-> isna v = true \/ forallb isspace (py_str v) = true.
Proof.
  rewrite clean_text_spec. destruct (isna v).
  - split; [now left | reflexivity].
  - unfold normalize_spec. rewrite <- words_nil_iff. split.
    + intros H. right. apply join_nil_iff; [apply words_nonempty | exact H].
    + intros [H|H]; [discriminate|]. now rewrite H.
Qed.

Lemma re_sub_keeps b s :
  filter nonspace (re_sub_spaces b s) = filter nonspace s
  /\ List.length (re_sub_spaces b s) <= List.length s.
Proof.
  revert b. induction s as [|c t IH]; intros b; [split; reflexivity|].
  cbn [re_sub_spaces filter List.length]. unfold nonspace at 2.
  destruct (isspace c) eqn:E; cbn [negb].
  - destruct b.
    + destruct (IH true) as [F L]. split; [exact F | lia].
    + destruct (IH true) as [F L]. cbn [filter List.length].
      unfold nonspace at 1. rewrite isspace_SPACE. cbn [negb].
      split; [exact F | lia].
  - destruct (IH false) as [F L]. cbn [filter List.length].
    unfold nonspace at 1. rewrite E. cbn [negb]. rewrite F. split; [reflexivity | lia].
Qed.

Lemma lstrip_keeps s :
  filter nonspace (lstrip s) = filter nonspace s
  /\ List.length (lstrip s) <= List.length s.
Proof.
  induction s as [|c t [F L]]; [split; reflexivity|].
  cbn [lstrip]. destruct (isspace c) eqn:E.
  - cbn [filter List.length]. unfold nonspace at 2. rewrite E. cbn [negb].
    split; [exact F | lia].
  - split; [reflexivity | lia].
Qed.

Lemma rstrip_keeps s :
  filter nonspace (rstrip s) = filter nonspace s
  /\ List.length (rstrip s) <= List.length s.
Proof.
  induction s as [|c t [F L]]; [split; reflexivity|].
  cbn [rstrip filter List.length]. rewrite <- F.
  destruct (rstrip t) as [|r rs].
  - unfold nonspace. destruct (isspace c) eqn:E;
      cbn [negb filter List.length]; rewrite ?E; cbn [negb];
      (split; [reflexivity | lia]).
  - cbn [filter List.length] in *. split; [reflexivity | lia].
Qed.

(** X2: [clean_text] touches whitespace only: the non-whitespace characters
    of a present value come out unchanged and in order, and the result is
    never longer than the text it was given. *)
Theorem clean_text_keeps_nonspace v :
  filter nonspace (clean_text v)
  = (if isna v then [] else filter nonspace (py_str v))
  /\ List.length (clean_text v) <= List.length (py_str v).
Proof.
  unfold clean_text. destruct (isna v).
  - split; [reflexivity | cbn [List.length]; lia].
  - unfold strip.
    destruct (rstrip_keeps (lstrip (re_sub_spaces false (py_str v)))) as [F1 L1].
    destruct (lstrip_keeps (re_sub_spaces false (py_str v))) as [F2 L2].
    destruct (re_sub_keeps false (py_str v)) as [F3 L3].
    split; [now rewrite F1, F2, F3 | lia].
Qed.

Lemma re_sub_single_spaced s :
  single_spaced s = true ->
  re_sub_spaces false s = s
  /\ match s with
     | c :: _ => isspace c = false -> re_sub_spaces true s = s
     | [] => True
     end.
Proof.
  induction s as [|c t IH]; [split; [reflexivity|exact I]|].
  cbn [single_spaced re_sub_spaces]. intros H.
  apply andb_prop in H. destruct H as [Hc Ht].
  destruct (IH Ht) as [IHf IHt].
  destruct (isspace c) eqn:E.
  - apply andb_prop in Hc. destruct Hc as [Hsp Hnext].
    apply N.eqb_eq in Hsp. subst c.
    split; [|discriminate].
    destruct t as [|d t']; [discriminate|].
    apply negb_true_iff in Hnext. now rewrite (IHt Hnext).
  - rewrite IHf. split; reflexivity.
Qed.

Lemma rstrip_single_spaced s : single_spaced s = true -> rstrip s = s.
Proof.
  induction s as [|c t IH]; [reflexivity|].
  cbn [single_spaced rstrip]. intros H.
  apply andb_prop in H. destruct H as [Hc Ht]. rewrite (IH Ht).
  destruct t as [|d t']; [|reflexivity].
  destruct (isspace c); [|reflexivity].
  apply andb_prop in Hc. destruct Hc as [_ Hc]. discriminate.
Qed.

(** X3: a text already in normal form (no whitespace at either end, every
    whitespace character a single U+0020 between two non-whitespace
    characters) is returned unchanged. *)
Theorem clean_text_fixes_normalized s :
  normalized s = true -> clean_text (VStr s) = s.
Proof.
  intros H. unfold clean_text. cbn [isna py_str]. unfold strip.
  destruct s as [|c t]; [reflexivity|].
  unfold normalized in H. apply andb_prop in H. destruct H as [Hc Hss].
  apply negb_true_iff in Hc.
  destruct (re_sub_single_spaced _ Hss) as [R _]. rewrite R.
  rewrite (lstrip_head_nonspace _ _ Hc).
  now apply rstrip_single_spaced.
Qed.

Lemma clean_text_fixes_normalized_witness :
  normalized (lit "Credit risk in India") = true
  /\ clean_text (VStr (lit "Credit risk in India")) = lit "Credit risk in India".
Proof.
  split; [reflexivity|].
  apply (clean_text_fixes_normalized (lit "Credit risk in India")).
  reflexivity.
Defined.

(** ** The helpers working on the markup *)

Lemma texts_app a b : texts (a ++ b) = texts a ++ texts b.
Proof. apply flat_map_app. Qed.

Lemma run_marks_bookmark_run r n b :
  run_marks (bookmark_run r n b) = MStart b n :: run_marks r ++ [MEnd b].
Proof.
  unfold run_marks, bookmark_run. cbn [run_children map].
  now rewrite map_app.
Qed.

(** The marks of the children of a paragraph. *)
Lemma on_first_run_marks n b cs :
  let g := fun c => match c with
                    | PRun r => run_marks r
                    | PHyperlink h => [MLink (hl_anchor h) (hl_text h)]
                    end in
  match on_first_run (fun run => bookmark_run run n b) cs with
  | Some cs' =>
      bookmarks (flat_map g cs') = (b, n) :: bookmarks (flat_map g cs)
      /\ links (flat_map g cs') = links (flat_map g cs)
      /\ texts (flat_map g cs') = texts (flat_map g cs)
      /\ List.length (flat_map g cs') = 2 + List.length (flat_map g cs)
  | None => forallb is_hyperlink cs = true /\ bookmarks (flat_map g cs) = []
  end.
Proof.
  intros g. induction cs as [|c rest IH]; [split; reflexivity|].
  destruct c as [r|h]; cbn [on_first_run].
  - cbn [flat_map]. unfold g at 1 3 5 7 9 11 13 15.
    rewrite run_marks_bookmark_run.
    change (MStart b n :: run_marks r ++ [MEnd b])
      with ([MStart b n] ++ run_marks r ++ [MEnd b]).
    rewrite !bookmarks_app, !links_app, !texts_app, !length_app.
    cbn [bookmarks links texts flat_map app List.length].
    rewrite !app_nil_r. repeat split; try reflexivity. lia.
  - destruct (on_first_run (fun run => bookmark_run run n b) rest) as [rest'|].
    + destruct IH as (B & L & T & N). cbn [flat_map]. unfold g at 1 3 5 7 9 11 13 15.
      rewrite !bookmarks_app, !links_app, !texts_app, !length_app, B, L, T, N.
      repeat split; reflexivity || (cbn [List.length]; lia).
    + destruct IH as (F & B). cbn [forallb is_hyperlink flat_map].
      split; [exact F|]. unfold g at 1. rewrite bookmarks_app, B. reflexivity.
Qed.

Lemma add_bookmark_marks p n b :
  bookmarks (para_marks (add_bookmark p n b)) = (b, n) :: bookmarks (para_marks p)
  /\ links (para_marks (add_bookmark p n b)) = links (para_marks p)
  /\ texts (para_marks (add_bookmark p n b)) = texts (para_marks p)
  /\ List.length (para_marks (add_bookmark p n b))
     = 2 + List.length (para_marks p)
  /\ alignment (add_bookmark p n b) = alignment p
  /\ spacing (add_bookmark p n b) = spacing p.
Proof.
  pose proof (on_first_run_marks n b (para_children p)) as H. cbv zeta in H.
  unfold add_bookmark.
  destruct (on_first_run (fun run => bookmark_run run n b) (para_children p))
    as [cs|].
  - destruct H as (B & L & T & N). unfold para_marks. cbn [para_children].
    repeat split; assumption.
  - destruct H as (_ & B). unfold add_run, para_marks in *.
    cbn [para_children alignment spacing].
    rewrite flat_map_app, bookmarks_app, links_app, texts_app, length_app, B.
    cbn. rewrite !app_nil_r. repeat split; try reflexivity. lia.
Qed.

(** X4: [add_bookmark] adds exactly one bookmark to a paragraph, ahead of the
    bookmarks it already has, and two marks in all (start and end); the
    links, the texts, the alignment and the spacing of the paragraph stay as
    they were. *)
Theorem add_bookmark_adds_one_pair p n b :
  bookmarks (para_marks (add_bookmark p n b)) = (b, n) :: bookmarks (para_marks p)
  /\ links (para_marks (add_bookmark p n b)) = links (para_marks p)
  /\ texts (para_marks (add_bookmark p n b)) = texts (para_marks p)
  /\ List.length (para_marks (add_bookmark p n b))
     = 2 + List.length (para_marks p)
  /\ alignment (add_bookmark p n b) = alignment p
  /\ spacing (add_bookmark p n b) = spacing p.
Proof. exact (add_bookmark_marks p n b). Qed.

(** X5: a run inside a hyperlink is not a run of the paragraph: on a
    paragraph holding hyperlinks only, [add_bookmark] appends a new empty
    run, so the bookmark follows the links and encloses nothing. *)
Theorem add_bookmark_after_links p n b :
  forallb is_hyperlink (para_children p) = true ->
  para_marks (add_bookmark p n b) = para_marks p ++ [MStart b n; MEnd b].
Proof.
  intros H. unfold add_bookmark.
  assert (E : on_first_run (fun run => bookmark_run run n b) (para_children p)
              = None).
  { induction (para_children p) as [|c rest IH]; [reflexivity|].
    destruct c as [r|h]; [discriminate|]. cbn [on_first_run].
    cbn [forallb is_hyperlink andb] in H. now rewrite (IH H). }
  rewrite E. unfold add_run, para_marks. cbn [para_children].
  now rewrite flat_map_app.
Qed.

Lemma add_bookmark_after_links_witness :
  forallb is_hyperlink
    (para_children
       (add_hyperlink (clear empty_paragraph) (lit "12") (lit "SUB_12")
          "Calibri" 10 false "1A237E")) = true
  /\ para_marks
       (add_bookmark
          (add_hyperlink (clear empty_paragraph) (lit "12") (lit "SUB_12")
             "Calibri" 10 false "1A237E")
          (lit "TOC_SUB_12") 2)
     = para_marks
         (add_hyperlink (clear empty_paragraph) (lit "12") (lit "SUB_12")
            "Calibri" 10 false "1A237E")
       ++ [MStart 2 (lit "TOC_SUB_12"); MEnd 2].
Proof.
  split; [reflexivity|].
  apply (add_bookmark_after_links
           (add_hyperlink (clear empty_paragraph) (lit "12") (lit "SUB_12")
              "Calibri" 10 false "1A237E")
           (lit "TOC_SUB_12") 2).
  reflexivity.
Defined.

(** X6: [add_hyperlink] appends one link after everything the paragraph
    holds and leaves its own runs alone, so the run a later [add_bookmark]
    picks is the same as before the link was added. *)
Theorem add_hyperlink_appends p text anchor font size b color :
  para_marks (add_hyperlink p text anchor font size b color)
  = para_marks p ++ [MLink anchor text]
  /\ filter (fun c => negb (is_hyperlink c))
       (para_children (add_hyperlink p text anchor font size b color))
     = filter (fun c => negb (is_hyperlink c)) (para_children p)
  /\ (forall n i,
        bookmarks (para_marks
                     (add_bookmark
                        (add_hyperlink p text anchor font size b color) n i))
        = (i, n) :: bookmarks (para_marks p)).
Proof.
  split; [|split].
  - unfold add_hyperlink, para_marks. cbn [para_children].
    now rewrite flat_map_app.
  - unfold add_hyperlink. cbn [para_children].
    rewrite filter_app. cbn. now rewrite app_nil_r.
  - intros n i.
    destruct (add_bookmark_marks
                (add_hyperlink p text anchor font size b color) n i) as (B & _).
    rewrite B. f_equal.
    unfold add_hyperlink, para_marks. cbn [para_children].
    rewrite flat_map_app, bookmarks_app. cbn. now rewrite app_nil_r.
Qed.


(** ** More on the generated book *)

(** The outline of the book for any table whose rows answer the four
    lookups. *)
Lemma build_outline_of_rows df track :
  Forall row_ok (iterrows df) ->
  exists d,
    create_book_of_abstracts df track = Ok d
    /\ outline d = book_outline track (submissions df).
Proof.
  intros F.
  destruct (prefix_run track) as (d0 & Hpre & Hd0).
  destruct (toc_loop (iterrows df) 0 toc_table {| bid := 1; doc := d0 |} F)
    as (tbl & Htoc & Htbl).
  cbn [bid doc] in Htoc, Htbl.
  set (n := List.length (iterrows df)) in *.
  destruct (cards_loop (len df) track (iterrows df) 0
              {| bid := 1 + Z.of_nat n;
                 doc := append_block
                          (BParagraph (add_run empty_paragraph
                                         (plain_run [PageBreak])))
                          (append_block (BTable tbl) d0) |} F)
    as (d & Hcards & Hd).
  { unfold len, iterrows. now rewrite length_map. }
  cbn [bid doc] in Hcards, Hd.
  exists d. split.
  - unfold create_book_of_abstracts, build.
    transitivity
      (match
         bind (modify_doc page_setup ;; title_page track ;; toc_heading)
           (fun _ =>
              tbl <- for_enumerate 0 (iterrows df) toc_row toc_table ;;
              doc_add_table tbl ;;
              doc_add_page_break ;;
              for_enumerate 0 (iterrows df)
                (abstract_card (len df) track) tt)
           {| bid := 0; doc := new_Document |}
       with
       | Ok (_, st) => Ok (doc st)
       | Raise e => Raise e
       end).
    { reflexivity. }
    rewrite (bind_ok _ _ _ _ _ Hpre).
    rewrite (bind_ok _ _ _ _ _ Htoc).
    unfold doc_add_table, doc_add_page_break, doc_add_paragraph, modify_doc.
    unfold bind at 1 2. cbn [bid doc].
    fold n. rewrite Hcards. reflexivity.
  - rewrite Hd. rewrite !outline_append, Hd0. cbn [block_outline].
    rewrite Htbl, toc_table_outline. unfold book_outline, submissions.
    rewrite length_map. fold n.
    rewrite <- !app_assoc. cbn [app].
    replace (1 + Z.of_nat n + 1)%Z with (Z.of_nat n + 2)%Z by lia.
    reflexivity.
Qed.

(** The marks of the contents row and of the card of a record. *)
Lemma cards_marks track nss :
  flat_map outline_marks (cards_outline track nss)
  = flat_map
      (fun bs => flat_map outline_marks
                   (card_outline track true (fst bs) (snd bs))) nss.
Proof.
  induction nss as [|[b s] rest IH]; [reflexivity|].
  cbn [cards_outline flat_map fst snd]. rewrite flat_map_app, IH.
  f_equal. destruct (negb (nonempty_list rest)); reflexivity.
Qed.

Lemma rows_marks (nss : list (Z * Submission)) :
  List.concat
    (List.concat (map (fun bs => contents_row_outline (fst bs) (snd bs)) nss))
  = flat_map
      (fun bs => List.concat (contents_row_outline (fst bs) (snd bs))) nss.
Proof.
  induction nss as [|[b s] rest IH]; [reflexivity|].
  cbn [map List.concat flat_map]. now rewrite concat_app, IH.
Qed.

Lemma book_marks d track ss :
  outline d = book_outline track ss ->
  doc_marks d
  = flat_map outline_marks (title_page_outline track)
    ++ [MStart 1 (lit "TOC"); MText (lit "Table of Contents"); MEnd 1]
    ++ List.concat contents_header_outline
    ++ flat_map
         (fun bs => List.concat (contents_row_outline (fst bs) (snd bs)))
         (number 2 ss)
    ++ [MBreak]
    ++ flat_map
         (fun bs => flat_map outline_marks
                      (card_outline track true (fst bs) (snd bs)))
         (number (Z.of_nat (List.length ss) + 2) ss).
Proof.
  intros H. unfold doc_marks. rewrite H. unfold book_outline.
  rewrite !flat_map_app, cards_marks. f_equal.
  cbn [flat_map outline_marks app List.concat].
  rewrite concat_app, rows_marks, <- !app_assoc. reflexivity.
Qed.

Lemma flat_map_flat_map {A B C} (h : B -> list C) (F : A -> list B) l :
  flat_map h (flat_map F l) = flat_map (fun x => flat_map h (F x)) l.
Proof.
  induction l as [|x l IH]; [reflexivity|].
  cbn [flat_map]. now rewrite flat_map_app, IH.
Qed.

Lemma flat_map_singleton {A B} (f : A -> B) l :
  flat_map (fun x => [f x]) l = map f l.
Proof. induction l as [|x l IH]; [reflexivity|]. cbn. now rewrite IH. Qed.

Lemma ends_app a b : bookmark_ends (a ++ b) = bookmark_ends a ++ bookmark_ends b.
Proof. apply flat_map_app. Qed.

Lemma well_bracketed_app a b : forall o,
  well_bracketed o a = true ->
  well_bracketed o (a ++ b) = well_bracketed None b.
Proof.
  induction a as [|m a IH]; intros o H.
  - destruct o; [discriminate|reflexivity].
  - destruct m; cbn [well_bracketed app] in H |- *.
    + destruct o; [discriminate|]. now apply IH.
    + destruct o as [j|]; [|discriminate].
      apply andb_prop in H. destruct H as [E H]. rewrite E. cbn [andb].
      now apply IH.
    + now apply IH.
    + now apply IH.
    + now apply IH.
Qed.

Lemma well_bracketed_flat_map {A} (F : A -> list Mark) l :
  (forall x, well_bracketed None (F x) = true) ->
  well_bracketed None (flat_map F l) = true.
Proof.
  intros H. induction l as [|x l IH]; [reflexivity|].
  cbn [flat_map]. now rewrite (well_bracketed_app _ _ _ (H x)).
Qed.

(** X8: in the generated document bookmarks never nest or overlap: each
    bookmark start is closed by the end carrying its id before another
    bookmark starts, none stays open, and so the ids of the ends, in
    document order, are those of the starts. *)
Theorem bookmarks_are_well_bracketed df track :
  has_record_columns df = true ->
  exists d,
    create_book_of_abstracts df track = Ok d
    /\ well_bracketed None (doc_marks d) = true
    /\ bookmark_ends (doc_marks d) = map fst (doc_bookmarks d).
Proof.
  intros H. destruct (build_outline df track H) as (d & Hd & Ho).
  exists d. split; [exact Hd|].
  pose proof (book_marks d track _ Ho) as Hm. split.
  - rewrite Hm.
    rewrite (well_bracketed_app _ _ None) by reflexivity.
    rewrite (well_bracketed_app [_; _; _] _ None) by reflexivity.
    rewrite (well_bracketed_app _ _ None) by reflexivity.
    rewrite (well_bracketed_app _ _ None).
    2:{ apply well_bracketed_flat_map. intros [b s].
        cbn. now rewrite Z.eqb_refl. }
    rewrite (well_bracketed_app [_] _ None) by reflexivity.
    apply well_bracketed_flat_map. intros [b s].
    cbn. now rewrite Z.eqb_refl.
  - unfold doc_bookmarks. fold (doc_marks d). rewrite Hm.
    rewrite !ends_app, !bookmarks_app, !map_app.
    unfold bookmark_ends at 4 6. unfold bookmarks at 4 6.
    rewrite !flat_map_flat_map.
    cbn [flat_map contents_row_outline card_outline outline_marks List.concat
           app fst snd].
    rewrite !flat_map_singleton, !map_map. reflexivity.
Qed.

Lemma book_links d track ss :
  outline d = book_outline track ss ->
  doc_links d
  = flat_map (fun s => [ (SUB (s_id s), py_str (s_id s));
                         (SUB (s_id s), clean_text (s_title s));
                         (SUB (s_id s), clean_text (s_authors s)) ]) ss
    ++ map (fun s => (TOC_SUB (s_id s), back_text)) ss.
Proof.
  intros H. unfold doc_links. rewrite (book_marks d track ss H).
  rewrite !links_app. unfold links at 4 6. rewrite !flat_map_flat_map.
  cbn [flat_map contents_row_outline card_outline outline_marks List.concat
         app fst snd].
  rewrite flat_map_singleton.
  repeat match goal with
         | |- context [links ?l] => change (links l) with (@nil (str * str))
         end.
  cbn [app]. f_equal.
  - clear H. generalize 2%Z. induction ss as [|s ss IH]; intros k; [reflexivity|].
    cbn [number flat_map fst snd app]. now rewrite IH.
  - apply map_number. reflexivity.
Qed.

(** X9: no internal link dangles and only the heading bookmark is unused:
    the document of [n] records holds [4n] hyperlinks, and a name is the
    anchor of one of them exactly when it is the name of a bookmark other
    than [TOC]. *)
Theorem links_target_bookmarks df track :
  has_record_columns df = true ->
  exists d,
    create_book_of_abstracts df track = Ok d
    /\ List.length (doc_links d) = 4 * len df
    /\ (forall a,
          In a (map fst (doc_links d))
          <-> In a (map snd (doc_bookmarks d)) /\ a <> lit "TOC").
Proof.
  intros H. destruct (build_outline df track H) as (d & Hd & Ho).
  exists d. split; [exact Hd|].
  rewrite (book_links d track _ Ho), (book_bookmark_names d track _ Ho).
  rewrite <- submissions_length. set (ss := submissions df). split.
  - rewrite length_app, length_map.
    assert (E : forall l : list Submission,
               List.length
                 (flat_map (fun s => [ (SUB (s_id s), py_str (s_id s));
                                       (SUB (s_id s), clean_text (s_title s));
                                       (SUB (s_id s), clean_text (s_authors s)) ])
                    l) = 3 * List.length l).
    { induction l as [|x l IH]; [reflexivity|].
      cbn [flat_map app List.length]. rewrite IH. lia. }
    rewrite E. lia.
  - intros a. rewrite map_app, in_app_iff, !map_map. cbn [fst].
    rewrite !in_map_iff. split.
    + intros [(x & E & Hin)|(s & E & Hin)].
      * apply in_flat_map in Hin. destruct Hin as (s & Hs & Hx).
        assert (Ea : a = SUB (s_id s)).
        { destruct Hx as [<-|[<-|[<-|[]]]]; now rewrite <- E. }
        clear E. subst a. split; [|vm_compute; discriminate].
        right. apply in_or_app. right.
        apply (in_map (fun s => SUB (s_id s))). exact Hs.
      * subst a. split; [|vm_compute; discriminate].
        right. apply in_or_app. left.
        apply (in_map (fun s => TOC_SUB (s_id s))). exact Hin.
    + intros [[E|Hin] Hne]; [congruence|].
      apply in_app_or in Hin. destruct Hin as [Hin|Hin];
        apply in_map_iff in Hin; destruct Hin as (s & E & Hs).
      * right. exists s. split; assumption.
      * left. exists (SUB (s_id s), py_str (s_id s)). split; [exact E|].
        apply in_flat_map. exists s. split; [exact Hs | now left].
Qed.

(** X10: the names of the bookmarks of the document are pairwise distinct
    exactly when the identifiers of the records, written as text, are: an
    integer and a text that read alike collide like two equal
    identifiers. *)
Theorem bookmark_names_distinct_iff df track :
  has_record_columns df = true ->
  exists d,
    create_book_of_abstracts df track = Ok d
    /\ (NoDup (map snd (doc_bookmarks d))
        <-> NoDup (map (fun s => py_str (s_id s)) (submissions df))).
Proof.
  intros H. destruct (build_outline df track H) as (d & Hd & Ho).
  exists d. split; [exact Hd|]. split.
  - rewrite (book_bookmark_names d track _ Ho). intros ND.
    apply NoDup_cons_iff in ND. destruct ND as [_ ND].
    apply NoDup_app_remove_l in ND.
    rewrite <- (map_map (fun s => py_str (s_id s)) (app (lit "SUB_"))) in ND.
    exact (NoDup_map_inv _ _ ND).
  - exact (book_names_NoDup d track _ Ho).
Qed.

(** X11: on a table without rows [create_book_of_abstracts] looks nothing
    up, so it needs no column: it returns the title page and a contents
    table with its header row only, the bookmark [TOC] being the only
    bookmark, with no card and no hyperlink. *)
Theorem empty_table_gives_bare_book df track :
  data df = [] ->
  exists d,
    create_book_of_abstracts df track = Ok d
    /\ doc_bookmarks d = [(1%Z, lit "TOC")]
    /\ contents_rows d = []
    /\ cards d = []
    /\ doc_links d = []
    /\ List.length (body d) = 21.
Proof.
  intros H.
  assert (F : Forall row_ok (iterrows df)).
  { unfold iterrows. rewrite H. constructor. }
  destruct (build_outline_of_rows df track F) as (d & Hd & Ho).
  assert (E : submissions df = []).
  { unfold submissions, iterrows. now rewrite H. }
  rewrite E in Ho.
  exists d. split; [exact Hd|].
  split; [exact (book_bookmarks d track [] Ho)|].
  split; [exact (contents_rows_outline d track [] Ho)|].
  split; [exact (cards_outline_of d track [] Ho)|].
  split; [exact (book_links d track [] Ho)|].
  rewrite <- (length_map block_outline). fold (outline d). rewrite Ho.
  reflexivity.
Qed.

Lemma cards_sections_tail track nss : forall i c,
  nth_error (table_sections (cards_outline track nss)) i = Some c ->
  List.length (snd c) = (if (S i =? List.length nss)%nat then 1 else 2)
  /\ tl (snd c) = (if (S i =? List.length nss)%nat then [] else [[]]).
Proof.
  induction nss as [|[b s] rest IH]; intros i c H.
  - destruct i; discriminate.
  - cbn [cards_outline] in H. unfold card_outline in H.
    destruct rest as [|r rest'].
    + cbn [nonempty_list negb app table_sections leading_paragraphs
             cards_outline] in H.
      destruct i as [|i]; [|destruct i; discriminate].
      injection H as <-. split; reflexivity.
    + cbn [nonempty_list negb app table_sections leading_paragraphs] in H.
      rewrite leading_cards_nil in H.
      destruct i as [|i].
      * injection H as <-. split; reflexivity.
      * cbn [nth_error] in H. destruct (IH i c H) as [L T].
        rewrite L, T. cbn [List.length Nat.eqb]. split; reflexivity.
Qed.

(** X12: a spacer paragraph follows every card except the last: the card at
    position [i] is followed by its "Back to Contents" paragraph and, unless
    it is the last card, by one more paragraph, which holds nothing; the
    body counts 21 blocks before the cards and [3n - 1] blocks for [n >= 1]
    cards. *)
Theorem spacer_between_cards df track :
  has_record_columns df = true ->
  len df <> 0 ->
  exists d,
    create_book_of_abstracts df track = Ok d
    /\ (forall i c,
          nth_error (cards d) i = Some c ->
          List.length (snd c) = (if (S i =? len df)%nat then 1 else 2)
          /\ tl (snd c) = (if (S i =? len df)%nat then [] else [[]]))
    /\ List.length (body d) = 20 + 3 * len df.
Proof.
  intros H Hne. destruct (build_outline df track H) as (d & Hd & Ho).
  exists d. split; [exact Hd|]. split.
  - intros i c Hc. rewrite (cards_outline_of d track _ Ho) in Hc.
    destruct (cards_sections_tail _ _ _ _ Hc) as [L T].
    rewrite number_length, submissions_length in L, T. now split.
  - rewrite <- (length_map block_outline). fold (outline d). rewrite Ho.
    unfold book_outline. rewrite !length_app.
    rewrite <- submissions_length in *. set (ss := submissions df) in *.
    assert (E : forall k (l : list Submission),
               l <> [] ->
               List.length (cards_outline track (number k l))
               = 3 * List.length l - 1).
    { intros k l. revert k. induction l as [|x l IH]; intros k Hl; [congruence|].
      cbn [number cards_outline]. rewrite length_app.
      destruct l as [|y l'].
      - reflexivity.
      - rewrite IH by discriminate. cbn [number nonempty_list negb card_outline
                                         app List.length]. lia. }
    rewrite E by (intros E'; rewrite E' in Hne; now apply Hne).
    cbn [List.length title_page_outline].
    destruct ss; [now destruct Hne|]. cbn [List.length]. lia.
Qed.

(** ** Lookups that fail *)

Lemma value_eqb_sym a b : value_eqb a b = value_eqb b a.
Proof.
  unfold value_eqb.
  destruct (value_eq_dec a b), (value_eq_dec b a); congruence.
Qed.

Lemma getitem_missing key cols : forall vs,
  existsb (value_eqb key) cols = false ->
  getitem (combine cols vs) key = Raise (KeyError key).
Proof.
  induction cols as [|k cols IH]; intros vs H; [reflexivity|].
  destruct vs as [|v vs]; [reflexivity|].
  cbn [existsb] in H. apply orb_false_elim in H. destruct H as [Hk H].
  cbn [combine getitem]. rewrite value_eqb_sym, Hk. now apply IH.
Qed.

Lemma getitem_series_missing df cells key :
  has_column df key = false ->
  getitem (series_of (columns df) cells) key = Raise (KeyError key).
Proof. intros H. now apply getitem_missing. Qed.

Lemma bind_raise {A B} (c : M A) (k : A -> M B) st e :
  c st = Raise e -> bind c k st = Raise e.
Proof. intros H. unfold bind. now rewrite H. Qed.

Lemma for_enumerate_raise {A S} idx (x : A) rest
    (body : nat -> A -> S -> M S) acc st e :
  body idx x acc st = Raise e ->
  for_enumerate idx (x :: rest) body acc st = Raise e.
Proof. intros H. cbn [for_enumerate]. now apply bind_raise. Qed.

Lemma toc_row_three idx row tbl st :
  (exists v, getitem row col_Submission_ID = Ok v)
  /\ (exists v, getitem row col_Title = Ok v)
  /\ (exists v, getitem row col_Authors = Ok v) ->
  exists cells,
    toc_row idx row tbl st
    = Ok (table_add_row tbl cells, {| bid := bid st + 1; doc := doc st |}).
Proof.
  intros ((i & Hi) & (t & Ht) & (a & Ha)).
  unfold toc_row, bind, lift, next_bid, ret.
  rewrite Hi, Ht, Ha. cbn [bid doc]. eexists. reflexivity.
Qed.

Lemma toc_loop_three rows : forall idx tbl st,
  Forall (fun row => (exists v, getitem row col_Submission_ID = Ok v)
                     /\ (exists v, getitem row col_Title = Ok v)
                     /\ (exists v, getitem row col_Authors = Ok v)) rows ->
  exists tbl',
    for_enumerate idx rows toc_row tbl st
    = Ok (tbl', {| bid := bid st + Z.of_nat (List.length rows);
                   doc := doc st |}).
Proof.
  induction rows as [|row rows IH]; intros idx tbl st F.
  - exists tbl. cbn. unfold ret. rewrite Z.add_0_r. now destruct st.
  - inversion F as [|? ? Hrow Hrows]; subst.
    destruct (toc_row_three idx row tbl st Hrow) as (cells & Hrun).
    cbn [for_enumerate]. rewrite (bind_ok _ _ _ _ _ Hrun).
    destruct (IH (S idx) (table_add_row tbl cells)
                {| bid := bid st + 1; doc := doc st |} Hrows)
      as (tbl' & Hloop).
    exists tbl'. rewrite Hloop. cbn [bid doc].
    do 3 f_equal. cbn [List.length]. lia.
Qed.

(** X13: called on a table that has at least one row and lacks one of the
    four columns of a record, [create_book_of_abstracts] raises [KeyError]
    for the first column it lacks, in the order [Submission ID], [Title],
    [Authors], [Abstract]; no document is returned. *)
Theorem missing_column_raises df track c :
  data df <> [] ->
  first_missing df = Some c ->
  create_book_of_abstracts df track = Raise (KeyError c).
Proof.
  intros Hne Hc.
  destruct (prefix_run track) as (d0 & Hpre & _).
  unfold create_book_of_abstracts, build.
  transitivity
    (match
       bind (modify_doc page_setup ;; title_page track ;; toc_heading)
         (fun _ =>
            tbl <- for_enumerate 0 (iterrows df) toc_row toc_table ;;
            doc_add_table tbl ;;
            doc_add_page_break ;;
            for_enumerate 0 (iterrows df)
              (abstract_card (len df) track) tt)
         {| bid := 0; doc := new_Document |}
     with
     | Ok (_, st) => Ok (doc st)
     | Raise e => Raise e
     end); [reflexivity|].
  rewrite (bind_ok _ _ _ _ _ Hpre).
  assert (Hrows : exists cells rest,
             iterrows df = series_of (columns df) cells
                           :: map (series_of (columns df)) rest
             /\ data df = cells :: rest).
  { unfold iterrows. destruct (data df) as [|cells rest]; [congruence|].
    exists cells, rest. split; reflexivity. }
  destruct Hrows as (cells & rest & Hrows & Hdata).
  set (row := series_of (columns df) cells) in *.
  unfold first_missing, record_cols in Hc. cbn [find] in Hc.
  destruct (has_column df col_Submission_ID) eqn:H1; cbn [negb] in Hc.
  2:{ injection Hc as <-. rewrite Hrows.
      rewrite (bind_raise _ _ _ (KeyError col_Submission_ID)); [reflexivity|].
      apply for_enumerate_raise. unfold toc_row, bind, lift.
      subst row. now rewrite (getitem_series_missing df cells _ H1). }
  destruct (getitem_series df cells _ H1) as (v1 & G1). fold row in G1.
  destruct (has_column df col_Title) eqn:H2; cbn [negb] in Hc.
  2:{ injection Hc as <-. rewrite Hrows.
      rewrite (bind_raise _ _ _ (KeyError col_Title)); [reflexivity|].
      apply for_enumerate_raise. unfold toc_row, bind, lift. rewrite G1.
      subst row. now rewrite (getitem_series_missing df cells _ H2). }
  destruct (getitem_series df cells _ H2) as (v2 & G2). fold row in G2.
  destruct (has_column df col_Authors) eqn:H3; cbn [negb] in Hc.
  2:{ injection Hc as <-. rewrite Hrows.
      rewrite (bind_raise _ _ _ (KeyError col_Authors)); [reflexivity|].
      apply for_enumerate_raise. unfold toc_row, bind, lift. rewrite G1, G2.
      subst row. now rewrite (getitem_series_missing df cells _ H3). }
  destruct (getitem_series df cells _ H3) as (v3 & G3). fold row in G3.
  destruct (has_column df col_Abstract) eqn:H4; cbn [negb] in Hc;
    [discriminate|]. injection Hc as <-.
  assert (F : Forall (fun row => (exists v, getitem row col_Submission_ID = Ok v)
                                 /\ (exists v, getitem row col_Title = Ok v)
                                 /\ (exists v, getitem row col_Authors = Ok v))
                (iterrows df)).
  { apply Forall_forall. intros r Hr. unfold iterrows in Hr.
    apply in_map_iff in Hr. destruct Hr as (cs & <- & _).
    repeat split; now apply getitem_series. }
  destruct (toc_loop_three (iterrows df) 0 toc_table {| bid := 1; doc := d0 |} F)
    as (tbl & Htoc).
  rewrite (bind_ok _ _ _ _ _ Htoc).
  unfold doc_add_table, doc_add_page_break, doc_add_paragraph, modify_doc.
  unfold bind at 1 2. cbn [bid doc]. rewrite Hrows.
  erewrite for_enumerate_raise; [reflexivity|].
  unfold abstract_card, bind, lift. rewrite G1, G2, G3.
  subst row. now rewrite (getitem_series_missing df cells _ H4).
Qed.

Lemma missing_column_raises_witness :
  data no_authors_df <> []
  /\ first_missing no_authors_df = Some col_Authors
  /\ create_book_of_abstracts no_authors_df (lit "FAE")
     = Raise (KeyError col_Authors).
Proof.
  split; [discriminate|]. split; [reflexivity|].
  apply (missing_column_raises no_authors_df (lit "FAE") col_Authors);
    [discriminate | reflexivity].
Defined.

(** ** The look of the contents table *)

Lemma even_mod idx : (idx mod 2 =? 0)%nat = Nat.even idx.
Proof.
  destruct (Nat.even idx) eqn:E.
  - apply Nat.even_spec in E. destruct E as (k & ->).
    apply Nat.eqb_eq. rewrite Nat.mul_comm. apply Nat.Div0.mod_mul.
  - apply Nat.eqb_neq. intros H.
    assert (Ev : Nat.even idx = true).
    { apply Nat.even_spec. exists (idx / 2).
      pose proof (Nat.div_mod_eq idx 2). lia. }
    congruence.
Qed.

Lemma toc_row_style idx row tbl st :
  (exists v, getitem row col_Submission_ID = Ok v)
  /\ (exists v, getitem row col_Title = Ok v)
  /\ (exists v, getitem row col_Authors = Ok v) ->
  exists cells,
    toc_row idx row tbl st
    = Ok (table_add_row tbl cells, {| bid := bid st + 1; doc := doc st |})
    /\ map cell_fill cells = repeat (Some (row_color idx)) 3
    /\ map width cells = contents_widths.
Proof.
  intros ((i & Hi) & (t & Ht) & (a & Ha)).
  unfold toc_row, bind, lift, next_bid, ret.
  rewrite Hi, Ht, Ha. cbn [bid doc]. eexists. split; [reflexivity|].
  unfold row_color. rewrite <- even_mod.
  destruct (idx mod 2 =? 0)%nat; split; reflexivity.
Qed.

Lemma toc_loop_style rows : forall idx tbl st,
  Forall (fun row => (exists v, getitem row col_Submission_ID = Ok v)
                     /\ (exists v, getitem row col_Title = Ok v)
                     /\ (exists v, getitem row col_Authors = Ok v)) rows ->
  exists tbl' added,
    for_enumerate idx rows toc_row tbl st
    = Ok (tbl', {| bid := bid st + Z.of_nat (List.length rows);
                   doc := doc st |})
    /\ tbl_rows tbl' = tbl_rows tbl ++ added
    /\ map (map cell_fill) added
       = map (fun i => repeat (Some (row_color i)) 3)
           (seq idx (List.length rows))
    /\ map (map width) added = repeat contents_widths (List.length rows).
Proof.
  induction rows as [|row rows IH]; intros idx tbl st F.
  - exists tbl, []. cbn. unfold ret. rewrite Z.add_0_r, app_nil_r.
    destruct st. repeat split.
  - inversion F as [|? ? Hrow Hrows]; subst.
    destruct (toc_row_style idx row tbl st Hrow) as (cells & Hrun & Hf & Hw).
    cbn [for_enumerate]. rewrite (bind_ok _ _ _ _ _ Hrun).
    destruct (IH (S idx) (table_add_row tbl cells)
                {| bid := bid st + 1; doc := doc st |} Hrows)
      as (tbl' & added & Hloop & Hrows' & Hfs & Hws).
    exists tbl', (cells :: added). rewrite Hloop. cbn [bid doc]. split.
    { do 3 f_equal. cbn [List.length]. lia. }
    split.
    { rewrite Hrows'. cbn [table_add_row tbl_rows]. now rewrite <- app_assoc. }
    cbn [map List.length seq repeat]. now rewrite Hf, Hw, Hfs, Hws.
Qed.

Lemma abstract_card_appends n track idx row st st' :
  abstract_card n track idx row tt st = Ok (tt, st') ->
  exists bs, body (doc st') = body (doc st) ++ bs.
Proof.
  unfold abstract_card, bind, lift, next_bid, ret, doc_add_table,
    doc_add_paragraph, modify_doc.
  destruct (getitem row col_Submission_ID); [|discriminate].
  destruct (getitem row col_Title); [|discriminate].
  destruct (getitem row col_Authors); [|discriminate].
  destruct (getitem row col_Abstract); [|discriminate].
  cbn [bid doc].
  destruct (Z.of_nat idx <? Z.of_nat n - 1)%Z; intros E; injection E as <-;
    unfold append_block; cbn [doc body]; rewrite <- ?app_assoc;
    eexists; reflexivity.
Qed.

Lemma cards_loop_appends n track rows : forall idx st st',
  for_enumerate idx rows (abstract_card n track) tt st = Ok (tt, st') ->
  exists bs, body (doc st') = body (doc st) ++ bs.
Proof.
  induction rows as [|row rows IH]; intros idx st st' H.
  - cbn in H. unfold ret in H. injection H as <-. exists []. now rewrite app_nil_r.
  - cbn [for_enumerate] in H. unfold bind in H at 1.
    destruct (abstract_card n track idx row tt st) as [[[] st1]|e] eqn:E;
      [|discriminate].
    destruct (abstract_card_appends _ _ _ _ _ _ E) as (bs1 & B1).
    destruct (IH _ _ _ H) as (bs2 & B2).
    exists (bs1 ++ bs2). now rewrite B2, B1, app_assoc.
Qed.

Lemma tables_of_outline d :
  List.length (doc_tables d)
  = List.length (flat_map (fun o => match o with
                                    | OTable r => [r]
                                    | OPara _ => []
                                    end) (outline d)).
Proof.
  unfold doc_tables, outline. induction (body d) as [|b bs IH]; [reflexivity|].
  cbn [map flat_map]. rewrite !length_app, IH. now destruct b.
Qed.

(** The contents table of the book is the table the first loop fills. *)
Lemma build_first_table df track :
  has_record_columns df = true ->
  exists d tbl added,
    create_book_of_abstracts df track = Ok d
    /\ hd_error (doc_tables d) = Some tbl
    /\ tbl_rows tbl = tbl_rows toc_table ++ added
    /\ map (map cell_fill) added
       = map (fun i => repeat (Some (row_color i)) 3) (seq 0 (len df))
    /\ map (map width) added = repeat contents_widths (len df).
Proof.
  intros H. pose proof (rows_ok df H) as F.
  assert (F3 : Forall (fun row =>
                         (exists v, getitem row col_Submission_ID = Ok v)
                         /\ (exists v, getitem row col_Title = Ok v)
                         /\ (exists v, getitem row col_Authors = Ok v))
                 (iterrows df)).
  { eapply Forall_impl; [|exact F]. intros r (A & B & C & _). now repeat split. }
  destruct (prefix_run track) as (d0 & Hpre & Hd0).
  destruct (toc_loop_style (iterrows df) 0 toc_table {| bid := 1; doc := d0 |} F3)
    as (tbl & added & Htoc & Hrows & Hf & Hw).
  cbn [bid doc] in Htoc.
  set (n := List.length (iterrows df)) in *.
  assert (Hn : n = len df) by (unfold n, len, iterrows; now rewrite length_map).
  destruct (cards_loop (len df) track (iterrows df) 0
              {| bid := 1 + Z.of_nat n;
                 doc := append_block
                          (BParagraph (add_run empty_paragraph
                                         (plain_run [PageBreak])))
                          (append_block (BTable tbl) d0) |} F)
    as (d & Hcards & _).
  { fold n. lia. }
  cbn [bid doc] in Hcards.
  destruct (cards_loop_appends _ _ _ _ _ _ Hcards) as (bs & Hbody).
  cbn [doc] in Hbody.
  exists d, tbl, added. rewrite <- Hn. split; [|split; [|repeat split; assumption]].
  - unfold create_book_of_abstracts, build.
    transitivity
      (match
         bind (modify_doc page_setup ;; title_page track ;; toc_heading)
           (fun _ =>
              tbl <- for_enumerate 0 (iterrows df) toc_row toc_table ;;
              doc_add_table tbl ;;
              doc_add_page_break ;;
              for_enumerate 0 (iterrows df)
                (abstract_card (len df) track) tt)
           {| bid := 0; doc := new_Document |}
       with
       | Ok (_, st) => Ok (doc st)
       | Raise e => Raise e
       end).
    { reflexivity. }
    rewrite (bind_ok _ _ _ _ _ Hpre).
    rewrite (bind_ok _ _ _ _ _ Htoc).
    unfold doc_add_table, doc_add_page_break, doc_add_paragraph, modify_doc.
    unfold bind at 1 2. cbn [bid doc].
    fold n. rewrite Hcards. reflexivity.
  - assert (T0 : doc_tables d0 = []).
    { apply length_zero_iff_nil. rewrite tables_of_outline, Hd0. reflexivity. }
    unfold doc_tables in *. rewrite Hbody. unfold append_block. cbn [body].
    rewrite !flat_map_app, T0. reflexivity.
Qed.

(** X14: the rows of the contents table alternate their background from
    the first one on: all three cells of the row at an even position are
    filled [F0F4FF], at an odd position [FFFFFF]; the cells of the header
    row are filled with the theme's navy. *)
Theorem contents_rows_alternate df track :
  has_record_columns df = true ->
  exists d,
    create_book_of_abstracts df track = Ok d
    /\ map (map cell_fill) (contents_table_rows d)
       = map (fun i => repeat (Some (row_color i)) 3) (seq 0 (len df))
    /\ map cell_fill (contents_table_header d) = repeat (Some IMRC_NAVY) 3.
Proof.
  intros H.
  destruct (build_first_table df track H)
    as (d & tbl & added & Hd & Ht & Hrows & Hf & _).
  exists d. split; [exact Hd|].
  unfold contents_table_rows, contents_table_header.
  destruct (doc_tables d) as [|t ts]; [discriminate|].
  cbn [hd_error] in Ht. injection Ht as ->. rewrite Hrows.
  split; [exact Hf | reflexivity].
Qed.

(** X15: the columns of the contents table keep one width from top to
    bottom: the cells of every row, like those of the header row, are 0.8,
    3.5 and 2.5 inches wide, and every row has exactly these three cells. *)
Theorem contents_columns_keep_width df track :
  has_record_columns df = true ->
  exists d,
    create_book_of_abstracts df track = Ok d
    /\ map (map width) (contents_table_rows d)
       = repeat contents_widths (len df)
    /\ map width (contents_table_header d) = contents_widths.
Proof.
  intros H.
  destruct (build_first_table df track H)
    as (d & tbl & added & Hd & Ht & Hrows & _ & Hw).
  exists d. split; [exact Hd|].
  unfold contents_table_rows, contents_table_header.
  destruct (doc_tables d) as [|t ts]; [discriminate|].
  cbn [hd_error] in Ht. injection Ht as ->. rewrite Hrows.
  split; [exact Hw | reflexivity].
Qed.

(** ** More on the entry point *)








Lemma non_oral_rows_are_inert_witness :
  read_excel (sample_world sample_df) (input_file_of []) = ReadOk sample_df
  /\ read_excel (sample_world (oral_rows sample_df)) (input_file_of [])
     = ReadOk (oral_rows sample_df)
  /\ (forall d path,
        save (sample_world (oral_rows sample_df)) d path
        = save (sample_world sample_df) d path)
  /\ main [] (sample_world (oral_rows sample_df))
     = main [] (sample_world sample_df).
Proof.
  split; [reflexivity|]. split; [reflexivity|]. split; [reflexivity|].
  apply (non_oral_rows_are_inert [] (sample_world sample_df)
           (sample_world (oral_rows sample_df)) sample_df);
    reflexivity.
Defined.

(** X20: the two bookmarks of a record get their ids from its position: for
    the record at position [i] of [n] (counting from 0), the contents row
    carries id [i + 2] and the card carries id [n + i + 2], so the card's id
    is the row's id plus the number of records. *)
Theorem bookmark_ids_per_record df track i s :
  has_record_columns df = true ->
  nth_error (submissions df) i = Some s ->
  exists d row card,
    create_book_of_abstracts df track = Ok d
    /\ nth_error (contents_rows d) i = Some row
    /\ nth_error (cards d) i = Some card
    /\ row_bookmarks row = [((Z.of_nat i + 2)%Z, TOC_SUB (s_id s))]
    /\ card_bookmarks card
       = [((Z.of_nat (len df) + Z.of_nat i + 2)%Z, SUB (s_id s))].
Proof.
  intros H Hs. destruct (build_outline df track H) as (d & Hd & Ho).
  pose proof (contents_rows_bookmarks d track _ Ho) as Hrb.
  pose proof (cards_bookmarks d track _ Ho) as Hcb.
  rewrite submissions_length in Hcb.
  pose proof (nth_error_number _ 2 _ _ Hs) as N1.
  pose proof (nth_error_number _ (Z.of_nat (len df) + 2) _ _ Hs) as N2.
  pose proof (nth_error_map_some
                (fun bs : Z * Submission => [(fst bs, TOC_SUB (s_id (snd bs)))])
                _ _ _ N1) as E1.
  pose proof (nth_error_map_some
                (fun bs : Z * Submission => [(fst bs, SUB (s_id (snd bs)))])
                _ _ _ N2) as E2.
  rewrite <- Hrb, nth_error_map in E1. rewrite <- Hcb, nth_error_map in E2.
  destruct (nth_error (contents_rows d) i) as [row|] eqn:Hrow; [|discriminate].
  destruct (nth_error (cards d) i) as [card|] eqn:Hcard; [|discriminate].
  cbn [option_map fst snd] in E1, E2. injection E1 as E1. injection E2 as E2.
  exists d, row, card. repeat split; try assumption.
  - rewrite E1. now rewrite Z.add_comm.
  - rewrite E2.
    replace (Z.of_nat (len df) + 2 + Z.of_nat i)%Z
      with (Z.of_nat (len df) + Z.of_nat i + 2)%Z by lia.
    reflexivity.
Qed.

Lemma bookmark_ids_per_record_witness :
  has_record_columns (oral_rows sample_df) = true
  /\ nth_error (submissions (oral_rows sample_df)) 1
     = Some {| s_id := VInt 21; s_title := VStr (lit "Pricing");
               s_authors := VNaN; s_abstract := VStr (lit "Options.") |}
  /\ exists d row card,
       create_book_of_abstracts (oral_rows sample_df) (lit "FAE") = Ok d
       /\ nth_error (contents_rows d) 1 = Some row
       /\ nth_error (cards d) 1 = Some card
       /\ row_bookmarks row
          = [((Z.of_nat 1 + 2)%Z, TOC_SUB (VInt 21))]
       /\ card_bookmarks card
          = [((Z.of_nat (len (oral_rows sample_df)) + Z.of_nat 1 + 2)%Z,
              SUB (VInt 21))].
Proof.
  split; [reflexivity|]. split; [reflexivity|].
  apply (bookmark_ids_per_record (oral_rows sample_df) (lit "FAE") 1
           {| s_id := VInt 21; s_title := VStr (lit "Pricing");
              s_authors := VNaN; s_abstract := VStr (lit "Options.") |});
    reflexivity.
Defined.

Lemma bookmarks_are_well_bracketed_witness :
  has_record_columns (oral_rows sample_df) = true
  /\ exists d,
       create_book_of_abstracts (oral_rows sample_df) (lit "FAE") = Ok d
       /\ well_bracketed None (doc_marks d) = true
       /\ bookmark_ends (doc_marks d) = map fst (doc_bookmarks d).
Proof.
  split; [reflexivity|].
  apply (bookmarks_are_well_bracketed (oral_rows sample_df) (lit "FAE")).
  reflexivity.
Defined.

Lemma links_target_bookmarks_witness :
  has_record_columns (oral_rows sample_df) = true
  /\ exists d,
       create_book_of_abstracts (oral_rows sample_df) (lit "FAE") = Ok d
       /\ List.length (doc_links d) = 4 * len (oral_rows sample_df)
       /\ (forall a,
             In a (map fst (doc_links d))
             <-> In a (map snd (doc_bookmarks d)) /\ a <> lit "TOC").
Proof.
  split; [reflexivity|].
  apply (links_target_bookmarks (oral_rows sample_df) (lit "FAE")).
  reflexivity.
Defined.

Lemma bookmark_names_distinct_iff_witness :
  has_record_columns duplicate_df = true
  /\ exists d,
       create_book_of_abstracts duplicate_df (lit "FAE") = Ok d
       /\ (NoDup (map snd (doc_bookmarks d))
           <-> NoDup (map (fun s => py_str (s_id s)) (submissions duplicate_df))).
Proof.
  split; [reflexivity|].
  apply (bookmark_names_distinct_iff duplicate_df (lit "FAE")).
  reflexivity.
Defined.

Lemma empty_table_gives_bare_book_witness :
  data empty_df = []
  /\ exists d,
       create_book_of_abstracts empty_df (lit "FAE") = Ok d
       /\ doc_bookmarks d = [(1%Z, lit "TOC")]
       /\ contents_rows d = []
       /\ cards d = []
       /\ doc_links d = []
       /\ List.length (body d) = 21.
Proof.
  split; [reflexivity|].
  apply (empty_table_gives_bare_book empty_df (lit "FAE")).
  reflexivity.
Defined.

Lemma spacer_between_cards_witness :
  has_record_columns (oral_rows sample_df) = true
  /\ len (oral_rows sample_df) <> 0
  /\ exists d,
       create_book_of_abstracts (oral_rows sample_df) (lit "FAE") = Ok d
       /\ (forall i c,
             nth_error (cards d) i = Some c ->
             List.length (snd c)
             = (if (S i =? len (oral_rows sample_df))%nat then 1 else 2)
             /\ tl (snd c)
                = (if (S i =? len (oral_rows sample_df))%nat then []
                   else [[]]))
       /\ List.length (body d) = 20 + 3 * len (oral_rows sample_df).
Proof.
  split; [reflexivity|]. split; [discriminate|].
  apply (spacer_between_cards (oral_rows sample_df) (lit "FAE"));
    [reflexivity | discriminate].
Defined.

Lemma contents_rows_alternate_witness :
  has_record_columns (oral_rows sample_df) = true
  /\ exists d,
       create_book_of_abstracts (oral_rows sample_df) (lit "FAE") = Ok d
       /\ map (map cell_fill) (contents_table_rows d)
          = map (fun i => repeat (Some (row_color i)) 3)
              (seq 0 (len (oral_rows sample_df)))
       /\ map cell_fill (contents_table_header d) = repeat (Some IMRC_NAVY) 3.
Proof.
  split; [reflexivity|].
  apply (contents_rows_alternate (oral_rows sample_df) (lit "FAE")).
  reflexivity.
Defined.

Lemma contents_columns_keep_width_witness :
  has_record_columns (oral_rows sample_df) = true
  /\ exists d,
       create_book_of_abstracts (oral_rows sample_df) (lit "FAE") = Ok d
       /\ map (map width) (contents_table_rows d)
          = repeat contents_widths (len (oral_rows sample_df))
       /\ map width (contents_table_header d) = contents_widths.
Proof.
  split; [reflexivity|].
  apply (contents_columns_keep_width (oral_rows sample_df) (lit "FAE")).
  reflexivity.
Defined.

(** ** Runs on sample inputs *)

Example clean_text_sample :
  clean_text (VStr (lit "  Credit " ++ [9; 10; 160]%N ++ lit " risk" ++ [8195]%N))
  = lit "Credit risk".
Proof. reflexivity. Qed.

Example clean_text_blank : clean_text (VStr (lit "  " ++ [9]%N)) = [].
Proof. reflexivity. Qed.

Example clean_text_number : clean_text (VInt (-42)) = lit "-42".
Proof. reflexivity. Qed.

Example parse_argv_two :
  parse_argv [lit "gen.py"; lit "in.xlsx"; lit "out.docx"]
  = (lit "in.xlsx", lit "out.docx", lit "FAE").
Proof. reflexivity. Qed.

Example sample_book_bookmarks :
  match create_book_of_abstracts (oral_rows sample_df) (lit "FAE") with
  | Ok d =>
      doc_bookmarks d
      = [ (1, lit "TOC"); (2, lit "TOC_SUB_12"); (3, lit "TOC_SUB_21");
          (4, lit "SUB_12"); (5, lit "SUB_21") ]%Z
      /\ map row_links (contents_rows d)
         = [ [ [(lit "SUB_12", lit "12")];
               [(lit "SUB_12", lit "Credit risk")];
               [(lit "SUB_12", lit "A. Rao")] ];
             [ [(lit "SUB_21", lit "21")];
               [(lit "SUB_21", lit "Pricing")];
               [(lit "SUB_21", [])] ] ]
      /\ map card_links (cards d)
         = [ [(lit "TOC_SUB_12", back_text)]; [(lit "TOC_SUB_21", back_text)] ]
  | Raise _ => False
  end.
Proof. vm_compute. repeat split. Qed.

Example sample_run :
  status (main [] (sample_world sample_df)) = Exit 0
  /\ option_map fst (written (main [] (sample_world sample_df)))
     = Some (lit "IMRC2025_Book_of_Abstracts.docx").
Proof. vm_compute. split; reflexivity. Qed.

Example missing_key_raises :
  create_book_of_abstracts incomplete_df (lit "FAE")
  = Raise (KeyError col_Abstract).
Proof. reflexivity. Qed.

Example int_and_text_collide :
  match create_book_of_abstracts
          {| columns := sample_columns;
             data := [ [VInt 5; VStr (lit "A"); VStr (lit "B"); VStr (lit "C");
                        Oral_Presentation];
                       [VStr (lit "5"); VStr (lit "D"); VStr (lit "E");
                        VStr (lit "F"); Oral_Presentation] ] |}
          (lit "FAE") with
  | Ok d => bookmark_count d (lit "SUB_5") = 2
  | Raise _ => False
  end.
Proof. vm_compute. reflexivity. Qed.
